(** * Muse 2016 packet handler (ble2lsl/devices/muse2016.py)

    A shallow embedding of the packet decoding and reassembly code of the
    Muse 2016 device file, and the properties of it that the written
    specification relies on.

    Layout of the development:
    - [Py]        Python runtime pieces the module uses: exceptions, list
                  indexing and slicing, dictionaries as association lists;
    - [Bitstring] the part of the [bitstring] package behind [_unpack];
    - [F32]       single precision arithmetic, for [CONVERT_FUNCS];
    - [Muse2016]  the module itself: its tables, [PacketHandler] and
                  [_unpack];
    - the properties, one section per topic. *)

From Stdlib Require Import ZArith List Ascii String Strings.Byte QArith SpecFloat.
From stdpp Require Import base decidable option list strings gmap.

Set Warnings "-register-all".

Local Open Scope Z_scope.

(* ===================================================================== *)
(** ** Python runtime                                                     *)
(* ===================================================================== *)

Module Py.

(** Keys of the dictionaries of the module: handles are integers, stream
    and parameter names are strings. *)
Inductive key :=
| KInt (z : Z)
| KStr (s : string).

(** The exceptions that the code of the module can raise.  [NameError]
    stands for the whole class: reading a local variable that was never
    bound raises [UnboundLocalError], which derives from it.
    [ReadError] is bitstring's, raised when a format reads off the end of
    the data. *)
Inductive exn :=
| KeyError (k : key)
| IndexError
| NameError (var : string)
| TypeError
| ValueError
| SyntaxError
| ReadError.

(** Result of evaluating an expression: a value, or a raised exception. *)
Inductive res (A : Type) :=
| Ok (a : A)
| Raise (e : exn).
Arguments Ok {A} a.
Arguments Raise {A} e.

Definition res_bind {A B} (r : res A) (k : A -> res B) : res B :=
  match r with
  | Ok a => k a
  | Raise e => Raise e
  end.

(** Python text that the handler computes on is a sequence of characters. *)
Definition str := list ascii.

Definition text (s : string) : str := list_ascii_of_string s.

(** [l[i]] for a non-negative index. *)
Definition getitem {A} (l : list A) (i : nat) : res A :=
  match l !! i with
  | Some x => Ok x
  | None => Raise IndexError
  end.

(** [l[-1]] *)
Definition getlast {A} (l : list A) : res A :=
  match last l with
  | Some x => Ok x
  | None => Raise IndexError
  end.

(** [l[i] = x] for a non-negative index: out of range raises. *)
Definition setitem {A} (l : list A) (i : nat) (x : A) : res (list A) :=
  if decide (i < length l)%nat then Ok (<[i:=x]> l) else Raise IndexError.

(** [l[:n]]: a negative bound counts from the end, and the bounds are
    clipped to the sequence. *)
Definition slice_to {A} (l : list A) (n : Z) : list A :=
  if 0 <=? n then firstn (Z.to_nat n) l
  else firstn (Z.to_nat (Z.of_nat (length l) + n)) l.

(** [l[1:]] *)
Definition slice_from1 {A} (l : list A) : list A := tail l.

(** [chr(i)].  The codes the handler converts are [uint:8] fields, below
    256, where the code points of Python text and the characters of
    [ascii] are the same. *)
Definition chr (i : Z) : ascii := ascii_of_N (Z.to_N i).

(** [s.replace(c, '')] for a single character [c]. *)
Definition remove_char (c : ascii) (s : str) : str :=
  filter (fun x => x <> c) s.
Arguments remove_char : simpl never.

(** [s * n] and [sep.join(l)] on strings. *)
Fixpoint str_mul (s : string) (n : nat) : string :=
  match n with
  | O => EmptyString
  | S n' => String.append s (str_mul s n')
  end.

Fixpoint str_join (sep : string) (l : list string) : string :=
  match l with
  | [] => EmptyString
  | [s] => s
  | s :: rest => String.append s (String.append sep (str_join sep rest))
  end.

(** Python objects that appear as data: the parameter table and the
    status record.  Dictionary displays keep their items in order. *)
Inductive obj :=
| ONone
| OBool (b : bool)
| OInt (z : Z)
| OFloat (f : spec_float)
| OStr (s : string)
| OList (l : list obj)
| OTuple (l : list obj)
| ODict (items : list (key * obj)).

#[global] Instance key_eq_dec : EqDecision key.
Proof. solve_decision. Defined.

(** A dictionary, as the list of its items in insertion order. *)
Definition dict (V : Type) := list (key * V).

(** [d[k]] *)
Fixpoint dict_get {V} (d : dict V) (k : key) : res V :=
  match d with
  | [] => Raise (KeyError k)
  | (k', v) :: rest => if decide (k' = k) then Ok v else dict_get rest k
  end.

Definition dict_keys {V} (d : dict V) : list key := map fst d.

Definition obj_keys_of (o : obj) : list key :=
  match o with
  | ODict items => dict_keys items
  | _ => []
  end.

(** [o[k]] on an object. *)
Definition obj_getitem (o : obj) (k : key) : res obj :=
  match o with
  | ODict items => dict_get items k
  | _ => Raise TypeError
  end.

End Py.

Import Py.

Declare Scope py_scope.
Delimit Scope py_scope with py.
Notation "x <- r ;; k" := (res_bind r (fun x => k))
  (at level 100, r at next level, right associativity) : py_scope.

Local Open Scope py_scope.

(* ===================================================================== *)
(** ** bitstring: [Bits(bytes=...)] and [Bits.unpack]                     *)
(* ===================================================================== *)

Module Bitstring.

(** A [Bits] value is its sequence of bits, most significant first. *)
Definition Bits := list bool.

(** The eight bits of a byte, most significant first. *)
Definition bits_of_byte (b : byte) : list bool :=
  let n := Z.of_N (Byte.to_N b) in
  map (fun i => Z.testbit n (Z.of_nat i)) [7; 6; 5; 4; 3; 2; 1; 0]%nat.

(** [Bits(bytes=packet)] *)
Definition of_bytes (packet : list byte) : Bits :=
  flat_map bits_of_byte packet.

(** The tokens of a format string: [uint:n] and [int:n] are the two kinds
    the packet formats of the module use. *)
Inductive token :=
| uint (n : nat)
| int (n : nat).

Definition width (t : token) : nat :=
  match t with uint n | int n => n end.

Definition total_width (ts : list token) : nat :=
  foldr (fun t acc => (width t + acc)%nat) 0%nat ts.

(** Big-endian unsigned value of a run of bits. *)
Definition uint_of_bits (bs : list bool) : Z :=
  fold_left (fun acc (b : bool) => 2 * acc + (if b then 1 else 0)) bs 0.

(** Two's complement value of a run of bits. *)
Definition int_of_bits (bs : list bool) : Z :=
  match bs with
  | true :: _ => uint_of_bits bs - 2 ^ Z.of_nat (length bs)
  | _ => uint_of_bits bs
  end.

Definition interpret (t : token) (bs : list bool) : Z :=
  match t with
  | uint _ => uint_of_bits bs
  | int _ => int_of_bits bs
  end.

(** [_readtoken]: a token that asks for more bits than are left raises
    [ReadError]; otherwise its value and the remaining bits. *)
Definition readtoken (t : token) (bs : Bits) : res (Z * Bits) :=
  if decide (length bs < width t)%nat then Raise ReadError
  else Ok (interpret t (firstn (width t) bs), skipn (width t) bs).

(** [_readlist]: the tokens are read in order from the start of the data;
    bits left over after the last token are not looked at. *)
Fixpoint readlist (ts : list token) (bs : Bits) : res (list Z) :=
  match ts with
  | [] => Ok []
  | t :: ts' =>
      vb <- readtoken t bs ;;
      vs <- readlist ts' (snd vb) ;;
      Ok (fst vb :: vs)
  end.

(** *** Format strings *)

Definition digit_of (c : ascii) : option nat :=
  let n := nat_of_ascii c in
  if decide (48 <= n /\ n <= 57)%nat then Some (n - 48)%nat else None.

Fixpoint nat_of_digits (acc : nat) (cs : list ascii) : option nat :=
  match cs with
  | [] => Some acc
  | c :: cs' =>
      match digit_of c with
      | Some d => nat_of_digits (10 * acc + d)%nat cs'
      | None => None
      end
  end.

(** Split at every occurrence of a separator character. *)
Fixpoint split_on (sep : ascii) (cs : list ascii) : list (list ascii) :=
  match cs with
  | [] => [[]]
  | c :: cs' =>
      if decide (c = sep) then [] :: split_on sep cs'
      else match split_on sep cs' with
           | [] => [[c]]
           | w :: ws => (c :: w) :: ws
           end
  end.

(** One item [name:length] of a format string. *)
Definition parse_token (cs : list ascii) : res token :=
  match split_on ":"%char cs with
  | [name; len] =>
      match len, nat_of_digits 0 len with
      | _ :: _, Some n =>
          if decide (name = text "uint") then Ok (uint n)
          else if decide (name = text "int") then Ok (int n)
          else Raise ValueError
      | _, _ => Raise ValueError
      end
  | _ => Raise ValueError
  end.

Fixpoint parse_tokens (items : list (list ascii)) : res (list token) :=
  match items with
  | [] => Ok []
  | i :: rest =>
      t <- parse_token i ;;
      ts <- parse_tokens rest ;;
      Ok (t :: ts)
  end.

(** [tokenparser]: a format string is a comma separated list of items. *)
Definition tokenparser (fmt : string) : res (list token) :=
  parse_tokens (split_on ","%char (text fmt)).

(** [Bits.unpack(fmt)] *)
Definition unpack (bs : Bits) (fmt : string) : res (list Z) :=
  ts <- tokenparser fmt ;;
  readlist ts bs.

End Bitstring.

(* ===================================================================== *)
(** ** Single precision arithmetic                                        *)
(* ===================================================================== *)

Module F32.

(** IEEE 754 binary32 values and operations, from the specification of
    floating point arithmetic of the standard library at precision 24
    and maximal exponent 128. *)
Definition prec : Z := 24.
Definition emax : Z := 128.

Definition t := spec_float.

Definition of_Z (z : Z) : t := binary_normalize prec emax z 0 false.
Definition mul : t -> t -> t := SFmul prec emax.
Definition sub : t -> t -> t := SFsub prec emax.
Definition div : t -> t -> t := SFdiv prec emax.

(** A Python float literal [m * 10^-d] is the binary64 nearest to it; both
    [m] and [10^d] are exact in binary64 for the literals of the module,
    and the quotient is correctly rounded. *)
Definition literal64 (m : Z) (d : nat) : spec_float :=
  SFdiv 53 1024 (binary_normalize 53 1024 m 0 false)
                (binary_normalize 53 1024 (10 ^ Z.of_nat d) 0 false).

(** Conversion of a binary64 scalar to binary32 (NumPy casts a Python
    scalar to the array's type before operating with it). *)
Definition of_f64 (x : spec_float) : t :=
  match x with
  | S754_finite s m e =>
      binary_normalize prec emax (if s then Z.neg m else Z.pos m) e s
  | _ => x
  end.

Definition literal (m : Z) (d : nat) : t := of_f64 (literal64 m d).

(** The rational number a finite value denotes. *)
Definition to_Q (x : t) : option Q :=
  match x with
  | S754_zero _ => Some 0%Q
  | S754_finite s m e =>
      let v := if s then Z.neg m else Z.pos m in
      Some (if 0 <=? e then inject_Z (v * 2 ^ e)
            else Qmake v (Z.to_pos (2 ^ (- e))))
  | _ => None
  end.

End F32.

(* ===================================================================== *)
(** ** Double precision arithmetic                                        *)
(* ===================================================================== *)

Module F64.

(** IEEE 754 binary64, the precision of a Python float and of a NumPy
    [float64]: the same operations at precision 53 and maximal exponent
    1024.  Every binary32 value is a binary64 value as it stands. *)
Definition prec : Z := 53.
Definition emax : Z := 1024.

Definition of_Z (z : Z) : spec_float := binary_normalize prec emax z 0 false.
Definition mul : spec_float -> spec_float -> spec_float := SFmul prec emax.
Definition div : spec_float -> spec_float -> spec_float := SFdiv prec emax.
Definition literal : Z -> nat -> spec_float := F32.literal64.

End F64.

(* ===================================================================== *)
(** ** The module muse2016                                                *)
(* ===================================================================== *)

Module Muse2016.

Import Bitstring.

(** *** Arrays *)

(** A two-dimensional array of single precision values, by rows. *)
Definition matrix := list (list F32.t).

(** Values that a conversion function returns: the elements are floating
    point values, of single precision unless the conversion says
    otherwise. *)
Inductive array :=
| Vec (v : list F32.t)
| Mat (rows : matrix).

(** [np.array(l, dtype=dt)] for a list of integers.  Only the element
    type [float32] is modelled. *)
Definition np_array (l : list Z) (dt : obj) : res (list F32.t) :=
  match dt with
  | OStr "float32" => Ok (map F32.of_Z l)
  | _ => Raise TypeError
  end.

(** [data.reshape((r, c))] of a one-dimensional array. *)
Fixpoint rows_of (r c : nat) (v : list F32.t) : matrix :=
  match r with
  | O => []
  | S r' => firstn c v :: rows_of r' c (skipn c v)
  end.

Definition reshape (r c : nat) (v : list F32.t) : res matrix :=
  if decide (length v = r * c)%nat then Ok (rows_of r c v)
  else Raise ValueError.

(** Broadcasting of a value to a row of [c] elements and to an array of
    [r] rows of [c] elements. *)
Definition broadcast_row (c : nat) (v : list F32.t) : res (list F32.t) :=
  if decide (length v = c) then Ok v
  else match v with
       | [x] => Ok (repeat x c)
       | _ => Raise ValueError
       end.

Fixpoint broadcast_rows (c : nat) (rows : matrix) : res matrix :=
  match rows with
  | [] => Ok []
  | v :: rest =>
      v' <- broadcast_row c v ;;
      rest' <- broadcast_rows c rest ;;
      Ok (v' :: rest')
  end.

Definition broadcast (r c : nat) (a : array) : res matrix :=
  match a with
  | Vec v => row <- broadcast_row c v ;; Ok (repeat row r)
  | Mat rows =>
      if decide (length rows = r) then broadcast_rows c rows
      else match rows with
           | [v] => row <- broadcast_row c v ;; Ok (repeat row r)
           | _ => Raise ValueError
           end
  end.

Definition columns (m : matrix) : nat :=
  match m with
  | [] => 0%nat
  | row :: _ => length row
  end.

(** [m[idx] = value] *)
Definition set_row (m : matrix) (idx : nat) (value : option array)
  : res matrix :=
  match m !! idx, value with
  | None, _ => Raise IndexError
  | Some _, None => Raise TypeError
  | Some old, Some a =>
      rows <- broadcast 1 (length old) a ;;
      row <- getitem rows 0 ;;
      Ok (<[idx:=row]> m)
  end.

(** [m[:, :] = value] *)
Definition set_all (m : matrix) (value : option array) : res matrix :=
  match value with
  | None => Raise TypeError
  | Some a => broadcast (length m) (columns m) a
  end.

(** *** Module level tables *)

Definition STREAMS : list string :=
  ["eeg"; "accelerometer"; "gyroscope"; "telemetry"; "status"]%string.

(** Modelled from the spec: [dict_partial_from_keys] of [ble2lsl.utils]
    is not among the sources.  The module uses it "for constructing
    dicts with STREAMS as keys": the values are paired with the keys in
    order. *)
Definition streams_dict {V} (values : list V) : dict V :=
  zip (KStr <$> STREAMS) values.

Definition tuple_of (ss : list string) : obj := OTuple (OStr <$> ss).

Definition PARAMS : obj :=
  ODict
    [ (KStr "manufacturer", OStr "Interaxon");
      (KStr "name", OStr "Muse");
      (KStr "streams", ODict
        [ (KStr "type", ODict (streams_dict
             [OStr "EEG"; OStr "ACC"; OStr "GYR"; OStr "TLM"; OStr "STAT"]));
          (KStr "channel_count", ODict (streams_dict
             [OInt 5; OInt 3; OInt 3; OInt 4; OInt 1]));
          (KStr "nominal_srate", ODict (streams_dict
             [OInt 256; OInt 52; OInt 52; OFloat (F32.literal64 1 1);
              ONone]));
          (KStr "channel_format", ODict (streams_dict
             [OStr "float32"; OStr "float32"; OStr "float32";
              OStr "float32"; OStr "string"]));
          (KStr "numpy_dtype", ODict (streams_dict
             [OStr "float32"; OStr "float32"; OStr "float32";
              OStr "float32"; OStr "object"]));
          (KStr "units", ODict (streams_dict
             [tuple_of (repeat "uV" 5); tuple_of (repeat "milli-g" 3);
              tuple_of (repeat "deg/s" 3);
              tuple_of ["%"; "?/mV"; "?/mV"; "C"]; tuple_of [EmptyString]]));
          (KStr "ch_names", ODict (streams_dict
             [tuple_of ["TP9"; "AF7"; "AF8"; "TP10"; "Right AUX"];
              tuple_of ["x"; "y"; "z"]; tuple_of ["x"; "y"; "z"];
              tuple_of ["battery"; "fuel_gauge"; "adc_volt";
                        "temperature"];
              OStr "message"]));
          (KStr "chunk_size", ODict (streams_dict
             [OInt 12; OInt 3; OInt 3; OInt 1; OInt 1])) ]);
      (KStr "ble", ODict
        [ (KStr "address_type", OStr "BLEAddressType.public");
          (KStr "interval_min", OInt 60);
          (KStr "interval_max", OInt 76);
          (KStr "eeg", OList
             [OStr "273e0003-4c4d-454d-96be-f03bac821358";
              OStr "273e0004-4c4d-454d-96be-f03bac821358";
              OStr "273e0005-4c4d-454d-96be-f03bac821358";
              OStr "273e0006-4c4d-454d-96be-f03bac821358";
              OStr "273e0007-4c4d-454d-96be-f03bac821358"]);
          (KStr "accelerometer",
             OStr "273e000a-4c4d-454d-96be-f03bac821358");
          (KStr "gyroscope", OStr "273e0009-4c4d-454d-96be-f03bac821358");
          (KStr "telemetry", OStr "273e000b-4c4d-454d-96be-f03bac821358");
          (KStr "status", OStr "273e0001-4c4d-454d-96be-f03bac821358");
          (KStr "send", OStr "273e0001-4c4d-454d-96be-f03bac821358");
          (KStr "stream_on", OTuple [OInt 2; OInt 100; OInt 10]);
          (KStr "stream_off", OTuple [OInt 2; OInt 104; OInt 10]) ]) ].

Definition HANDLE_NAMES : dict string :=
  [ (KInt 14, "status"); (KInt 26, "telemetry"); (KInt 23, "accelerometer");
    (KInt 20, "gyroscope"); (KInt 32, "eeg"); (KInt 35, "eeg");
    (KInt 38, "eeg"); (KInt 41, "eeg"); (KInt 44, "eeg") ]%string.

Definition EEG_HANDLE_CH_IDXS : dict nat :=
  [ (KInt 32, 0); (KInt 35, 1); (KInt 38, 2); (KInt 41, 3);
    (KInt 44, 4) ]%nat.

Definition EEG_HANDLE_RECEIVE_ORDER : list Z := [44; 41; 38; 32; 35].

(** [CONVERT_FUNCS]: the arithmetic of the first three is that of a
    [float32] array with Python scalars, which NumPy carries out in single
    precision. *)
Definition convert_eeg (data : list F32.t) : res (option array) :=
  Ok (Some (Vec (map (fun x => F32.mul (F32.literal 48828125 8)
                                       (F32.sub x (F32.of_Z 2048))) data))).

Definition convert_accelerometer (data : list F32.t) : res (option array) :=
  m <- reshape 3 3 data ;;
  Ok (Some (Mat (map (map (F32.mul (F32.literal 610352 10))) m))).

Definition convert_gyroscope (data : list F32.t) : res (option array) :=
  m <- reshape 3 3 data ;;
  Ok (Some (Mat (map (map (F32.mul (F32.literal 74768 7))) m))).

(** The telemetry conversion works on the elements [data[i]], which are
    NumPy scalars of type [float32].  An operation of such a scalar and a
    Python number is an operation of two scalars, which NumPy 1.x carries
    out in double precision (the [int] as an [int64], the [float] as a
    [float64]); the array made of the four results is then a [float64]
    array, in which [data[2]] and [data[3]] keep their values. *)
Definition convert_telemetry (data : list F32.t) : res (option array) :=
  d0 <- getitem data 0 ;;
  d1 <- getitem data 1 ;;
  d2 <- getitem data 2 ;;
  d3 <- getitem data 3 ;;
  Ok (Some (Vec [F64.div d0 (F64.of_Z 512); F64.mul (F64.literal 22 1) d1;
                 d2; d3])).

Definition convert_status (data : list F32.t) : res (option array) :=
  Ok None.

Definition CONVERT_FUNCS : dict (list F32.t -> res (option array)) :=
  streams_dict [convert_eeg; convert_accelerometer; convert_gyroscope;
                convert_telemetry; convert_status].

(** [_unpack] *)
Definition _unpack (packet : list byte) (packet_format : string)
  : res (list Z) :=
  let packet_bits := of_bytes packet in
  unpack packet_bits packet_format.

(** *** The handler *)

(** The sample index kept for a stream: one per channel for the stream
    that arrives split over several handles, a single number otherwise. *)
Inductive idxs :=
| IScalar (z : Z)
| IArray (l : list Z).

Inductive payload :=
| PChunk (m : matrix)
| PRecord (r : obj).

(** One call of the output callback, with the values of its arguments at
    the time of the call. *)
Record emission := Emit {
  em_name : string;
  em_idx : idxs;
  em_data : payload
}.

(** The attributes of a [PacketHandler].  [_subscriptions],
    [_sample_idxs] and [_chunks] are set up by [BasePacketHandler], which
    is not part of this file; [_message] starts empty. *)
Record PacketHandler := {
  _subscriptions : list string;
  _sample_idxs : gmap string idxs;
  _chunks : gmap string matrix;
  _message : str
}.

Definition with_sample_idxs (f : gmap string idxs -> gmap string idxs)
    (self : PacketHandler) : PacketHandler :=
  {| _subscriptions := _subscriptions self;
     _sample_idxs := f (_sample_idxs self);
     _chunks := _chunks self;
     _message := _message self |}.

Definition with_chunks (f : gmap string matrix -> gmap string matrix)
    (self : PacketHandler) : PacketHandler :=
  {| _subscriptions := _subscriptions self;
     _sample_idxs := _sample_idxs self;
     _chunks := f (_chunks self);
     _message := _message self |}.

Definition with_message (f : str -> str) (self : PacketHandler)
  : PacketHandler :=
  {| _subscriptions := _subscriptions self;
     _sample_idxs := _sample_idxs self;
     _chunks := _chunks self;
     _message := f (_message self) |}.

(** A method body runs on the handler and ends with the handler as the
    body left it, the calls of the callback it made, in order, and either
    its return value or the exception that stopped it.  An exception
    undoes nothing: what was assigned before it stays assigned. *)
Record step (A : Type) := Step {
  after : PacketHandler;
  emitted : list emission;
  outcome : res A
}.
Arguments Step {A} after emitted outcome.
Arguments after {A} s.
Arguments emitted {A} s.
Arguments outcome {A} s.

Definition M (A : Type) := PacketHandler -> step A.

Definition ret {A} (a : A) : M A := fun self => Step self [] (Ok a).

Definition bind {A B} (m : M A) (k : A -> M B) : M B :=
  fun self =>
    match m self with
    | Step self1 emitted1 (Ok a) =>
        match k a self1 with
        | Step self2 emitted2 result => Step self2 (emitted1 ++ emitted2) result
        end
    | Step self1 emitted1 (Raise e) => Step self1 emitted1 (Raise e)
    end.

Definition lift {A} (r : res A) : M A := fun self => Step self [] r.

Definition gets {A} (f : PacketHandler -> A) : M A :=
  fun self => Step self [] (Ok (f self)).

Definition modify (f : PacketHandler -> PacketHandler) : M unit :=
  fun self => Step (f self) [] (Ok tt).

(** [self._callback(name, idx, data)]: the callback is the consumer's; it
    is taken to return. *)
Definition _callback (name : string) (idx : idxs) (data : payload)
  : M unit :=
  fun self => Step self [Emit name idx data] (Ok tt).

(** [d[k]] on an attribute that is a dictionary keyed by stream name. *)
Definition attr_get {V} (d : gmap string V) (k : string) : res V :=
  match d !! k with
  | Some v => Ok v
  | None => Raise (KeyError (KStr k))
  end.

(** Reading a local variable that may not have been bound. *)
Definition read_local {A} (var : string) (v : option A) : res A :=
  match v with
  | Some a => Ok a
  | None => Raise (NameError var)
  end.

Declare Scope handler_scope.
Delimit Scope handler_scope with handler.
Notation "x <- m ;; k" := (bind m (fun x => k))
  (at level 100, m at next level, right associativity) : handler_scope.
Notation "m ;;; k" := (bind m (fun _ => k))
  (at level 100, right associativity) : handler_scope.

Section Handler.

(** The number of 12-bit samples in an EEG packet.  The module writes
    [PARAMS["chunk_size"]] for it, a key that [PARAMS] does not have
    (the chunk sizes are under [PARAMS["streams"]], see
    [PARAMS_has_no_chunk_size]); the count is left open here, and
    nothing below depends on its value. *)
Variable chunk_size : nat.

(** [ast.literal_eval], from the Python library: the value of a
    literal, or the exception raised for text that is not one. *)
Variable literal_eval : str -> res obj.

Definition PACKET_FORMATS : dict string :=
  streams_dict
    [ String.append "uint:16" (str_mul ",uint:12" chunk_size);
      String.append "uint:16" (str_mul ",int:16" 9);
      String.append "uint:16" (str_mul ",int:16" 9);
      String.append "uint:16" (str_mul ",uint:16" 4);
      str_join "," (repeat "uint:8"%string 20) ].

Local Open Scope handler_scope.

(** [PacketHandler._process_status] *)
Definition _process_status (unpacked : list Z) : M unit :=
  let message_chars := map chr (slice_from1 unpacked) in
  n <- lift (getitem unpacked 0) ;;
  let status_message_partial := slice_to message_chars n in
  modify (with_message (fun m => m ++ status_message_partial)) ;;;
  c <- lift (getlast status_message_partial) ;;
  if decide (c = "}"%char) then
    modify (with_message (remove_char "010"%char)) ;;;
    message <- gets _message ;;
    record <- lift (literal_eval message) ;;
    _callback "status" (IScalar (-1)) (PRecord record) ;;;
    modify (with_message (fun _ => []))
  else ret tt.

(** Lines 136 to 141 of [process_packet]: the branch taken for the
    stream that is split over several handles. *)
Definition assemble_split (handle : Z) (name : string)
    (unpacked : list Z) (data : option (list F32.t)) : M unit :=
  idx <- lift (dict_get EEG_HANDLE_CH_IDXS (KInt handle)) ;;
  u0 <- lift (getitem unpacked 0) ;;
  sample_idxs <- gets _sample_idxs ;;
  cur <- lift (attr_get sample_idxs name) ;;
  cur' <- lift (match cur with
                | IArray l => l' <- setitem l idx u0 ;; Ok (IArray l')
                | IScalar _ => Raise TypeError
                end)%py ;;
  modify (with_sample_idxs <[name:=cur']>) ;;;
  convert <- lift (dict_get CONVERT_FUNCS (KStr name)) ;;
  d <- lift (read_local "data" data) ;;
  value <- lift (convert d) ;;
  chunks <- gets _chunks ;;
  chunk <- lift (attr_get chunks name) ;;
  chunk' <- lift (set_row chunk idx value) ;;
  modify (with_chunks <[name:=chunk']>) ;;;
  last_handle <- lift (getlast EEG_HANDLE_RECEIVE_ORDER) ;;
  if decide (handle = last_handle) then
    sample_idxs <- gets _sample_idxs ;;
    i <- lift (attr_get sample_idxs name) ;;
    chunks <- gets _chunks ;;
    c <- lift (attr_get chunks name) ;;
    _callback name i (PChunk c)
  else ret tt.

(** Lines 143 to 146 of [process_packet]: the branch taken for every
    other stream. *)
Definition emit_single (name : string) (unpacked : list Z)
    (data : option (list F32.t)) : M unit :=
  u0 <- lift (getitem unpacked 0) ;;
  modify (with_sample_idxs <[name:=IScalar u0]>) ;;;
  convert <- lift (dict_get CONVERT_FUNCS (KStr name)) ;;
  d <- lift (read_local "data" data) ;;
  value <- lift (convert d) ;;
  chunks <- gets _chunks ;;
  chunk <- lift (attr_get chunks name) ;;
  chunk' <- lift (set_all chunk value) ;;
  modify (with_chunks <[name:=chunk']>) ;;;
  sample_idxs <- gets _sample_idxs ;;
  i <- lift (attr_get sample_idxs name) ;;
  chunks <- gets _chunks ;;
  c <- lift (attr_get chunks name) ;;
  _callback name i (PChunk c).

(** [PacketHandler.process_packet].  The local variable [data] is bound
    on one side of the first conditional only. *)
Definition process_packet (handle : Z) (packet : list byte) : M unit :=
  name <- lift (dict_get HANDLE_NAMES (KInt handle)) ;;
  packet_format <- lift (dict_get PACKET_FORMATS (KStr name)) ;;
  unpacked <- lift (_unpack packet packet_format) ;;
  subscriptions <- gets _subscriptions ;;
  if decide (name ∉ subscriptions) then ret tt
  else
    data <- (if decide (name = "status") then
               _process_status unpacked ;;;
               ret None
             else
               dtypes <- lift (obj_getitem PARAMS (KStr "numpy_dtypes")) ;;
               dtype <- lift (obj_getitem dtypes (KStr name)) ;;
               a <- lift (np_array (slice_from1 unpacked) dtype) ;;
               ret (Some a)) ;;
    if decide (name = "eeg") then assemble_split handle name unpacked data
    else emit_single name unpacked data.

(** Notifications are delivered one at a time; an exception ends the
    call in which it is raised and the next notification is processed
    on the handler as that call left it. *)
Fixpoint run {X} (f : X -> M unit) (xs : list X) (self : PacketHandler)
  : PacketHandler * list emission :=
  match xs with
  | [] => (self, [])
  | x :: rest =>
      let s := f x self in
      let r := run f rest (after s) in
      (fst r, emitted s ++ snd r)
  end.

End Handler.

End Muse2016.

(* ===================================================================== *)
(** ** A reader for dictionary displays                                   *)
(* ===================================================================== *)

(** The status record of the headset is a flat dictionary display: string
    or integer keys, and strings, integers, [True], [False] or [None] as
    values.  [Literal.literal_eval] reads such displays and raises
    [SyntaxError] on anything else; it stands for [ast.literal_eval] where
    a property is shown on a concrete text. *)
Module Literal.

Inductive token :=
| TLBrace | TRBrace | TColon | TComma
| TStr (s : str)
| TWord (w : str).

Inductive mode :=
| Idle
| InStr (quote : ascii) (acc : str)
| InWord (acc : str).

Definition is_space (c : ascii) : bool :=
  bool_decide (c = " "%char \/ c = "009"%char \/ c = "010"%char
               \/ c = "013"%char).

Definition punct (c : ascii) : option token :=
  if decide (c = "{"%char) then Some TLBrace
  else if decide (c = "}"%char) then Some TRBrace
  else if decide (c = ":"%char) then Some TColon
  else if decide (c = ","%char) then Some TComma
  else None.

Definition is_quote (c : ascii) : bool :=
  bool_decide (c = "034"%char \/ c = "'"%char).

(** One character of input; the tokens are collected in reverse. *)
Definition lex_step (st : mode * list token) (c : ascii)
  : mode * list token :=
  let '(m, out) := st in
  match m with
  | InStr q acc =>
      if decide (c = q) then (Idle, TStr (rev acc) :: out)
      else (InStr q (c :: acc), out)
  | InWord acc =>
      if is_space c then (Idle, TWord (rev acc) :: out)
      else match punct c with
           | Some t => (Idle, t :: TWord (rev acc) :: out)
           | None => if is_quote c then (InStr c [], TWord (rev acc) :: out)
                     else (InWord (c :: acc), out)
           end
  | Idle =>
      if is_space c then (Idle, out)
      else match punct c with
           | Some t => (Idle, t :: out)
           | None => if is_quote c then (InStr c [], out)
                     else (InWord [c], out)
           end
  end.

Definition lex (s : str) : option (list token) :=
  match fold_left lex_step s (Idle, []) with
  | (Idle, out) => Some (rev out)
  | (InWord acc, out) => Some (rev (TWord (rev acc) :: out))
  | (InStr _ _, _) => None
  end.

Definition int_of_word (w : str) : option Z :=
  match w with
  | [] => None
  | c :: ds =>
      if decide (c = "-"%char) then
        match ds with
        | [] => None
        | _ => (fun n => - Z.of_nat n) <$> Bitstring.nat_of_digits 0 ds
        end
      else Z.of_nat <$> Bitstring.nat_of_digits 0 w
  end.

Definition has_backslash (s : str) : bool :=
  bool_decide ("092"%char ∈ s).

Definition atom (t : token) : option obj :=
  match t with
  | TStr s =>
      if has_backslash s then None else Some (OStr (string_of_list_ascii s))
  | TWord w =>
      if decide (w = text "True") then Some (OBool true)
      else if decide (w = text "False") then Some (OBool false)
      else if decide (w = text "None") then Some ONone
      else OInt <$> int_of_word w
  | _ => None
  end.

Definition key_of (t : token) : option key :=
  match atom t with
  | Some (OStr s) => Some (KStr s)
  | Some (OInt z) => Some (KInt z)
  | _ => None
  end.

(** The items of a display, after its opening brace. *)
Fixpoint items (ts : list token) : option (list (key * obj)) :=
  match ts with
  | [TRBrace] => Some []
  | k :: TColon :: v :: rest =>
      match key_of k, atom v, rest with
      | Some k', Some v', [TRBrace] => Some [(k', v')]
      | Some k', Some v', TComma :: rest' => cons (k', v') <$> items rest'
      | _, _, _ => None
      end
  | _ => None
  end.

Definition literal_eval (s : str) : res obj :=
  match lex s with
  | Some (TLBrace :: ts) =>
      match items ts with
      | Some l => Ok (ODict l)
      | None => Raise SyntaxError
      end
  | _ => Raise SyntaxError
  end.

End Literal.

(* ===================================================================== *)
(** ** Vocabulary of the properties                                       *)
(* ===================================================================== *)

Import Muse2016 Bitstring.

(** The fields of the packet of each stream, for [n] samples in an EEG
    packet. *)
Definition stream_tokens (n : nat) (name : string) : list token :=
  if decide (name = "eeg") then uint 16 :: repeat (uint 12) n
  else if decide (name = "accelerometer") then uint 16 :: repeat (int 16) 9
  else if decide (name = "gyroscope") then uint 16 :: repeat (int 16) 9
  else if decide (name = "telemetry") then uint 16 :: repeat (uint 16) 4
  else repeat (uint 8) 20.

(** The number of bits of a packet. *)
Definition packet_bits (packet : list byte) : nat := (8 * length packet)%nat.

(** The valid content of a status fragment, as [_process_status] computes
    it from the decoded fields: the characters of the payload cut at the
    declared length. *)
Definition fragment_content (unpacked : list Z) : str :=
  match unpacked with
  | [] => []
  | n :: codes => slice_to (map chr codes) n
  end.

Definition ends_with_brace (s : str) : Prop := last s = Some "}"%char.

(** The decoded fields of a status fragment carrying [s] (at most 19
    characters), padded with zeros, and the packet that decodes to them. *)
Definition code_of (c : ascii) : Z := Z.of_N (N_of_ascii c).

Definition fragment_fields (s : str) : list Z :=
  Z.of_nat (length s)
    :: map code_of (s ++ repeat "000"%char (19 - length s)).

Definition fragment_packet (s : str) : list byte :=
  omap (fun z => Byte.of_N (Z.to_N z)) (fragment_fields s).

(** The text of the record [{"a": 1}] and the record itself. *)
Definition double_quote : ascii := "034"%char.

Definition record_a1_text : str :=
  text "{" ++ [double_quote] ++ text "a" ++ [double_quote] ++ text ": 1}".

Definition record_a1 : obj := ODict [(KStr "a", OInt 1)].

(** The scaling of the EEG samples as a rational number:
    0.48828125 * (raw - 2048). *)
Definition eeg_microvolts (raw : Z) : Q :=
  ((48828125 # 100000000) * inject_Z (raw - 2048))%Q.

(** What [CONVERT_FUNCS["eeg"]] does to one element. *)
Definition convert_eeg_element (x : F32.t) : F32.t :=
  F32.mul (F32.literal 48828125 8) (F32.sub x (F32.of_Z 2048)).

(** The single precision result for [raw] denotes [eeg_microvolts raw]. *)
Definition eeg_element_exact (raw : Z) : bool :=
  match F32.to_Q (convert_eeg_element (F32.of_Z raw)) with
  | Some q => Qeq_bool q (eeg_microvolts raw)
  | None => false
  end.

(** A handler with nothing stored. *)
Definition fresh_handler (subscriptions : list string) : PacketHandler :=
  {| _subscriptions := subscriptions;
     _sample_idxs := ∅;
     _chunks := ∅;
     _message := [] |}.

(** One notification: a handle and the bytes received on it. *)
Definition notification := (Z * list byte)%type.

Definition notify (chunk_size : nat) (literal_eval : str -> res obj)
    (n : notification) : M unit :=
  process_packet chunk_size literal_eval (fst n) (snd n).

(** The branch of the split stream on one decoded notification whose
    payload array is at hand: the handle, the decoded fields and the
    array. *)
Definition assemble (n : Z * list Z * list F32.t) : M unit :=
  assemble_split n.1.1 "eeg" n.1.2 (Some n.2).

(** The values a field can take: [n] bits unsigned, or [n] bits in two's
    complement. *)
Definition in_range (t : token) (v : Z) : Prop :=
  match t with
  | uint n => 0 <= v < 2 ^ Z.of_nat n
  | int n => - 2 ^ Z.of_nat (n - 1) <= v < 2 ^ Z.of_nat (n - 1)
  end.

(** The number that the bytes of a packet spell, most significant byte
    first. *)
Definition big_endian (packet : list byte) : Z :=
  fold_left (fun acc b => 256 * acc + Z.of_N (Byte.to_N b)) packet 0.

(** The value of a field from the [n] bits [raw] it occupies. *)
Definition field_value (t : token) (raw : Z) : Z :=
  match t with
  | uint _ => raw
  | int n => if raw <? 2 ^ Z.of_nat (n - 1) then raw else raw - 2 ^ Z.of_nat n
  end.

(** Field extraction by arithmetic on a number [v] of [len] bits: each
    field is the quotient by the weight of the bits below it, and the
    fields after it are taken from the remainder. *)
Fixpoint peel (ts : list token) (v : Z) (len : nat) : list Z :=
  match ts with
  | [] => []
  | t :: ts' =>
      let below := (len - width t)%nat in
      field_value t (v / 2 ^ Z.of_nat below)
        :: peel ts' (v mod 2 ^ Z.of_nat below) below
  end.

(** The number a byte stands for. *)
Definition byte_value (b : byte) : Z := Z.of_N (Byte.to_N b).

(** A call of the callback for the status stream: the name "status", the
    sample index -1 and a record. *)
Definition is_status_record (e : emission) : Prop :=
  em_name e = "status"%string /\ em_idx e = IScalar (-1)
  /\ exists r, em_data e = PRecord r.

(** The text that a run of status fragments carries. *)
Definition fragments_text (frags : list (list Z)) : str :=
  concat (map fragment_content frags).

(** The five ways a call of [process_packet] goes. *)
Inductive call_case (chunk_size : nat) (literal_eval : str -> res obj)
    (handle : Z) (packet : list byte) (self : PacketHandler)
  : step unit -> Prop :=
| unknown_handle :
    KInt handle ∉ dict_keys HANDLE_NAMES ->
    call_case chunk_size literal_eval handle packet self (Step self [] (Raise (KeyError (KInt handle))))
| undecoded name fmt :
    dict_get HANDLE_NAMES (KInt handle) = Ok name ->
    dict_get (PACKET_FORMATS chunk_size) (KStr name) = Ok fmt ->
    _unpack packet fmt = Raise ReadError ->
    call_case chunk_size literal_eval handle packet self (Step self [] (Raise ReadError))
| unsubscribed name fmt unpacked :
    dict_get HANDLE_NAMES (KInt handle) = Ok name ->
    dict_get (PACKET_FORMATS chunk_size) (KStr name) = Ok fmt ->
    _unpack packet fmt = Ok unpacked ->
    name ∉ _subscriptions self ->
    call_case chunk_size literal_eval handle packet self (Step self [] (Ok tt))
| sensor name :
    dict_get HANDLE_NAMES (KInt handle) = Ok name ->
    name <> "status" ->
    name ∈ _subscriptions self ->
    call_case chunk_size literal_eval handle packet self
      (Step self [] (Raise (KeyError (KStr "numpy_dtypes"))))
| status fmt u0 rest :
    handle = 14 ->
    dict_get (PACKET_FORMATS chunk_size) (KStr "status") = Ok fmt ->
    _unpack packet fmt = Ok (u0 :: rest) ->
    length rest = 19%nat ->
    "status" ∈ _subscriptions self ->
    call_case chunk_size literal_eval handle packet self
      (let s := _process_status literal_eval (u0 :: rest) self in
       Step (match outcome s with
             | Ok _ => with_sample_idxs <["status":=IScalar u0]> (after s)
             | Raise _ => after s
             end)
            (emitted s)
            (Raise (match outcome s with
                    | Ok _ => NameError "data"
                    | Raise e => e
                    end))).

(** The shape of a converted value, and the shape that the values of a
    stream have: one row of samples for an EEG handle, three by three for
    the motion streams, four numbers for the telemetry. *)
Definition shape (a : array) : list nat :=
  match a with
  | Vec v => [length v]
  | Mat rows => [length rows; columns rows]
  end.

Definition stream_shape (n : nat) (name : string) : list nat :=
  if decide (name = "eeg") then [n]
  else if decide (name = "telemetry") then [4%nat]
  else [3%nat; 3%nat].

(** A handler subscribed to the EEG stream that has its arrays: five
    sample indices and a chunk of five rows of [n] samples, all zero. *)
Definition eeg_handler (n : nat) : PacketHandler :=
  {| _subscriptions := ["eeg"%string];
     _sample_idxs := {["eeg"%string := IArray (repeat 0 5)]};
     _chunks := {["eeg"%string := repeat (repeat (F32.of_Z 0) n) 5]};
     _message := [] |}.

(* ===================================================================== *)
(** ** Basic facts                                                        *)
(* ===================================================================== *)

Section Basics.

Lemma text_append a b : text (String.append a b) = text a ++ text b.
Proof. induction a as [|c a IH]; simpl; [done | by rewrite IH]. Qed.

(** The keys of the parameter table, and the two keys that the module
    asks for and that are not among them. *)
Lemma PARAMS_keys :
  obj_keys_of PARAMS
  = [KStr "manufacturer"; KStr "name"; KStr "streams"; KStr "ble"].
Proof. reflexivity. Qed.

Lemma PARAMS_has_no_chunk_size :
  obj_getitem PARAMS (KStr "chunk_size")
  = Raise (KeyError (KStr "chunk_size")).
Proof. reflexivity. Qed.

Lemma PARAMS_has_no_numpy_dtypes :
  obj_getitem PARAMS (KStr "numpy_dtypes")
  = Raise (KeyError (KStr "numpy_dtypes")).
Proof. reflexivity. Qed.

Lemma length_of_bytes packet :
  length (of_bytes packet) = packet_bits packet.
Proof.
  unfold of_bytes, packet_bits.
  induction packet as [|b p IH]; [done |].
  cbn [flat_map]. rewrite length_app, IH. simpl. lia.
Qed.

(** A format that asks for more bits than the data has reads off its
    end. *)
Lemma readlist_short ts : forall bs,
  (length bs < total_width ts)%nat -> readlist ts bs = Raise ReadError.
Proof.
  induction ts as [|t ts IH]; intros bs Hlen; simpl in *; [lia |].
  unfold readtoken. case_decide; [done |].
  cbn [res_bind snd fst]. rewrite IH; [done |].
  rewrite length_skipn. lia.
Qed.

(** A format that the data covers is read in full, one value per field;
    what the data has beyond it plays no part. *)
Lemma readlist_enough ts : forall bs,
  (total_width ts <= length bs)%nat ->
  exists vs, readlist ts bs = Ok vs /\ length vs = length ts.
Proof.
  induction ts as [|t ts IH]; intros bs Hlen; simpl in *; [by exists [] |].
  unfold readtoken. rewrite decide_False by lia.
  cbn [res_bind snd fst].
  destruct (IH (skipn (width t) bs)) as (vs & -> & Hvs).
  { rewrite length_skipn. lia. }
  eexists. split; [done |]. simpl. by rewrite Hvs.
Qed.

Lemma readlist_surplus ts : forall bs extra,
  (total_width ts <= length bs)%nat ->
  readlist ts (bs ++ extra) = readlist ts bs.
Proof.
  induction ts as [|t ts IH]; intros bs extra Hlen; simpl in *; [done |].
  unfold readtoken. rewrite length_app.
  rewrite !decide_False by lia. cbn [res_bind snd fst].
  rewrite skipn_app, firstn_app.
  replace (width t - length bs)%nat with 0%nat by lia.
  rewrite firstn_0, skipn_0, app_nil_r.
  rewrite IH; [done |]. rewrite length_skipn. lia.
Qed.

End Basics.

(* ===================================================================== *)
(** ** The packet formats                                                 *)
(* ===================================================================== *)

Section Formats.

Variable chunk_size : nat.

Local Abbreviation no_comma := (Forall (fun x : ascii => x <> ","%char)).

Lemma split_on_word (w : str) (c : ascii) rest l ls :
  split_on c rest = l :: ls ->
  Forall (fun x => x <> c) w ->
  split_on c (w ++ rest) = (w ++ l) :: ls.
Proof.
  intros Hrest Hw. induction Hw as [|x w Hx _ IH]; simpl; [done |].
  rewrite decide_False by done. by rewrite IH.
Qed.

Lemma split_on_repeat (n : nat) (item : string) :
  no_comma (text item) ->
  split_on ","%char (text (str_mul (String.append "," item) n))
  = [] :: repeat (text item) n.
Proof.
  intros Hitem. induction n as [|n IH]; [done |].
  cbn [str_mul]. rewrite !text_append.
  change (text ",") with [","%char]. cbn [app split_on].
  rewrite decide_True by done.
  by rewrite (split_on_word _ _ _ _ _ IH Hitem), app_nil_r.
Qed.

Lemma parse_tokens_repeat item t n :
  parse_token item = Ok t ->
  parse_tokens (repeat item n) = Ok (repeat t n).
Proof.
  intros H. induction n as [|n IH]; [done |]. simpl. by rewrite H, IH.
Qed.

(** A first item followed by [n] copies of a second one. *)
Lemma tokenparser_head_repeat (h item : string) (th ti : token) n :
  no_comma (text h) -> no_comma (text item) ->
  parse_token (text h) = Ok th ->
  parse_token (text item) = Ok ti ->
  tokenparser (String.append h (str_mul (String.append "," item) n))
  = Ok (th :: repeat ti n).
Proof.
  intros Hh Hi Ph Pi. unfold tokenparser. rewrite text_append.
  rewrite (split_on_word _ _ _ _ _ (split_on_repeat n item Hi) Hh).
  rewrite app_nil_r. cbn [parse_tokens]. rewrite Ph. cbn [res_bind].
  by rewrite (parse_tokens_repeat _ _ _ Pi).
Qed.

(** Every handle of [HANDLE_NAMES] names a stream that has a packet
    format, and the format is well formed: it denotes the fields of
    [stream_tokens]. *)
Lemma dict_get_value {V} (d : dict V) k v :
  dict_get d k = Ok v -> v ∈ d.*2.
Proof.
  induction d as [|[k' v'] d IH]; cbn [dict_get]; [done |].
  destruct (decide (k' = k)) as [-> | Hne].
  - intros [= ->]. by left.
  - intros Hd. right. by apply IH.
Qed.

(** Every stream has a packet format, and the format is well formed: it
    denotes the fields of [stream_tokens]. *)
Lemma stream_format name :
  name ∈ STREAMS ->
  exists fmt,
    dict_get (PACKET_FORMATS chunk_size) (KStr name) = Ok fmt
    /\ tokenparser fmt = Ok (stream_tokens chunk_size name).
Proof.
  unfold STREAMS. intros Hname.
  apply elem_of_cons in Hname as [-> | Hname].
  { eexists. split; [reflexivity |].
    apply (tokenparser_head_repeat "uint:16" "uint:12");
      try (vm_compute; reflexivity);
      repeat constructor; discriminate. }
  repeat (apply elem_of_cons in Hname as [-> | Hname]);
    [.. | by apply elem_of_nil in Hname];
    (eexists; split; [reflexivity | vm_compute; reflexivity]).
Qed.

(** Every handle of [HANDLE_NAMES] names one of the streams. *)
Lemma handle_stream handle name :
  dict_get HANDLE_NAMES (KInt handle) = Ok name -> name ∈ STREAMS.
Proof.
  intros Hname%dict_get_value. cbn in Hname. unfold STREAMS.
  repeat (apply elem_of_cons in Hname as [-> | Hname]);
    [.. | by apply elem_of_nil in Hname];
    set_solver.
Qed.

Lemma handle_format handle name :
  dict_get HANDLE_NAMES (KInt handle) = Ok name ->
  exists fmt,
    dict_get (PACKET_FORMATS chunk_size) (KStr name) = Ok fmt
    /\ tokenparser fmt = Ok (stream_tokens chunk_size name).
Proof. intros Hname%handle_stream. by apply stream_format. Qed.

Lemma eeg_width : total_width (stream_tokens chunk_size "eeg")
                  = (16 + 12 * chunk_size)%nat.
Proof.
  unfold stream_tokens. rewrite decide_True by done.
  cbn [total_width foldr width]. f_equal.
  induction chunk_size as [|n IH]; [done |].
  cbn [repeat foldr width]. rewrite IH. lia.
Qed.

(** [_unpack] on a packet of a stream, by the size of the packet. *)
Lemma unpack_short packet fmt ts :
  tokenparser fmt = Ok ts ->
  (packet_bits packet < total_width ts)%nat ->
  _unpack packet fmt = Raise ReadError.
Proof.
  intros Hts Hlen. unfold _unpack, unpack. rewrite Hts. cbn [res_bind].
  apply readlist_short. by rewrite length_of_bytes.
Qed.

Lemma unpack_enough packet fmt ts :
  tokenparser fmt = Ok ts ->
  (total_width ts <= packet_bits packet)%nat ->
  exists unpacked,
    _unpack packet fmt = Ok unpacked /\ length unpacked = length ts.
Proof.
  intros Hts Hlen. unfold _unpack, unpack. rewrite Hts. cbn [res_bind].
  apply readlist_enough. by rewrite length_of_bytes.
Qed.

Lemma unpack_surplus packet extra fmt ts :
  tokenparser fmt = Ok ts ->
  (total_width ts <= packet_bits packet)%nat ->
  _unpack (packet ++ extra) fmt = _unpack packet fmt.
Proof.
  intros Hts Hlen. unfold _unpack, unpack. rewrite Hts. cbn [res_bind].
  replace (of_bytes (packet ++ extra))
    with (of_bytes packet ++ of_bytes extra)
    by (unfold of_bytes; by rewrite flat_map_app).
  apply readlist_surplus. by rewrite length_of_bytes.
Qed.

End Formats.

(* ===================================================================== *)
(** ** Running a method body                                              *)
(* ===================================================================== *)

(** How each operation of a method body runs when it comes first. *)
Section Laws.

Context {A B : Type}.
Implicit Types (k : A -> M B) (self : PacketHandler).

Lemma bind_lift_ok (a : A) k self : bind (lift (Ok a)) k self = k a self.
Proof. unfold bind, lift. by destruct (k a self). Qed.

Lemma bind_lift_raise e k self :
  bind (lift (Raise e)) k self = Step self [] (Raise e).
Proof. reflexivity. Qed.

Lemma bind_ret (a : A) k self : bind (ret a) k self = k a self.
Proof. unfold bind, ret. by destruct (k a self). Qed.

Lemma bind_gets (f : PacketHandler -> A) k self :
  bind (gets f) k self = k (f self) self.
Proof. unfold bind, gets. by destruct (k (f self) self). Qed.

Lemma bind_step (m : M A) k self :
  bind m k self
  = match outcome (m self) with
    | Ok a =>
        Step (after (k a (after (m self))))
             (emitted (m self) ++ emitted (k a (after (m self))))
             (outcome (k a (after (m self))))
    | Raise e => Step (after (m self)) (emitted (m self)) (Raise e)
    end.
Proof.
  unfold bind. destruct (m self) as [self1 em1 [a|e]]; [| done].
  cbn [after emitted outcome]. by destruct (k a self1).
Qed.

End Laws.

Lemma bind_assoc {A B C} (m : M A) (k1 : A -> M B) (k2 : B -> M C) self :
  bind (bind m k1) k2 self = bind m (fun a => bind (k1 a) k2) self.
Proof.
  unfold bind. destruct (m self) as [self1 em1 [a|e]]; [| done].
  destruct (k1 a self1) as [self2 em2 [b|e]]; [| done].
  destruct (k2 b self2) as [self3 em3 r]. by rewrite app_assoc.
Qed.

Lemma bind_modify {B} f (k : unit -> M B) self :
  bind (modify f) k self = k tt (f self).
Proof. unfold bind, modify. by destruct (k tt (f self)). Qed.

Lemma bind_callback {B} name idx data (k : unit -> M B) self :
  bind (_callback name idx data) k self
  = Step (after (k tt self)) (Emit name idx data :: emitted (k tt self))
         (outcome (k tt self)).
Proof. unfold bind, _callback. by destruct (k tt self). Qed.

(** One step of a method body whose first operation is known. *)
Ltac step :=
  first [ rewrite bind_lift_ok | rewrite bind_lift_raise | rewrite bind_ret
        | rewrite bind_gets | rewrite bind_modify | rewrite bind_callback ];
  cbv beta.

Ltac step_with H := rewrite H; step.

(* ===================================================================== *)
(** ** Dispatch: unknown handles, short packets, unsubscribed streams     *)
(* ===================================================================== *)

Section Dispatch.

Variable chunk_size : nat.
Variable literal_eval : str -> res obj.

Local Abbreviation process_packet :=
  (Muse2016.process_packet chunk_size literal_eval).

(** The part of [process_packet] before the subscription test. *)
Lemma process_packet_unknown handle packet self e :
  dict_get HANDLE_NAMES (KInt handle) = Raise e ->
  process_packet handle packet self = Step self [] (Raise e).
Proof. intros H. unfold Muse2016.process_packet. by step_with H. Qed.

Lemma process_packet_undecoded handle packet self name fmt e :
  dict_get HANDLE_NAMES (KInt handle) = Ok name ->
  dict_get (PACKET_FORMATS chunk_size) (KStr name) = Ok fmt ->
  _unpack packet fmt = Raise e ->
  process_packet handle packet self = Step self [] (Raise e).
Proof.
  intros H1 H2 H3. unfold Muse2016.process_packet.
  step_with H1. step_with H2. by step_with H3.
Qed.

Lemma process_packet_unsubscribed handle packet self name fmt unpacked :
  dict_get HANDLE_NAMES (KInt handle) = Ok name ->
  dict_get (PACKET_FORMATS chunk_size) (KStr name) = Ok fmt ->
  _unpack packet fmt = Ok unpacked ->
  name ∉ _subscriptions self ->
  process_packet handle packet self = Step self [] (Ok tt).
Proof.
  intros H1 H2 H3 Hsub. unfold Muse2016.process_packet.
  step_with H1. step_with H2. step_with H3. step.
  by rewrite decide_True.
Qed.

(** A subscribed stream other than the status stream: the element type
    is looked up under a key that [PARAMS] does not have. *)
Lemma process_packet_sensor handle packet self name fmt unpacked :
  dict_get HANDLE_NAMES (KInt handle) = Ok name ->
  dict_get (PACKET_FORMATS chunk_size) (KStr name) = Ok fmt ->
  _unpack packet fmt = Ok unpacked ->
  name ∈ _subscriptions self ->
  name <> "status" ->
  process_packet handle packet self
  = Step self [] (Raise (KeyError (KStr "numpy_dtypes"))).
Proof.
  intros H1 H2 H3 Hsub Hname. unfold Muse2016.process_packet.
  step_with H1. step_with H2. step_with H3. step.
  rewrite decide_False by (intros Hn; by apply Hn).
  rewrite decide_False by done.
  rewrite bind_step, PARAMS_has_no_numpy_dtypes. by step.
Qed.

(** Whatever the packet and the subscriptions, a notification of a
    stream other than the status stream leaves the handler as it was and
    does not call the callback. *)
Lemma sensor_notification_is_silent handle packet self name :
  dict_get HANDLE_NAMES (KInt handle) = Ok name ->
  name <> "status" ->
  after (process_packet handle packet self) = self
  /\ emitted (process_packet handle packet self) = [].
Proof.
  intros Hname Hns.
  destruct (handle_format chunk_size _ _ Hname) as (fmt & Hfmt & _).
  destruct (_unpack packet fmt) as [unpacked|e] eqn:Hun.
  - destruct (decide (name ∈ _subscriptions self)) as [Hin|Hout].
    + by rewrite (process_packet_sensor _ _ _ _ _ _ Hname Hfmt Hun Hin Hns).
    + by rewrite (process_packet_unsubscribed _ _ _ _ _ _ Hname Hfmt Hun Hout).
  - by rewrite (process_packet_undecoded _ _ _ _ _ _ Hname Hfmt Hun).
Qed.

(** C4. A notification whose handle is not a key of [HANDLE_NAMES] ends
    the call with the lookup's [KeyError] on that handle (the unknown
    source error): an exception the caller can catch, raised before
    anything is assigned, so that the handler is as it was, and the
    callback is not called. *)
Theorem unknown_source_is_rejected handle packet self :
  KInt handle ∉ dict_keys HANDLE_NAMES ->
  process_packet handle packet self
  = Step self [] (Raise (KeyError (KInt handle))).
Proof.
  intros Hkey. apply process_packet_unknown.
  unfold HANDLE_NAMES in *. cbn [dict_get dict_keys map fst] in *.
  repeat case_decide; subst; try done.
  all: exfalso; apply Hkey; set_solver.
Qed.

(** C8. A notification of a stream that is not subscribed: the packet
    is decoded first, so the call ends as the decoding does (normally, or
    with the decoder's exception for a packet that is too short); in
    both cases the callback is not called and the subscriptions, sample
    indices, chunks and status text are what they were. *)
Theorem unsubscribed_stream_is_decoded_only handle packet self name :
  dict_get HANDLE_NAMES (KInt handle) = Ok name ->
  name ∉ _subscriptions self ->
  exists fmt,
    dict_get (PACKET_FORMATS chunk_size) (KStr name) = Ok fmt
    /\ process_packet handle packet self
       = Step self [] (res_bind (_unpack packet fmt) (fun _ => Ok tt)).
Proof.
  intros Hname Hsub.
  destruct (handle_format chunk_size _ _ Hname) as (fmt & Hfmt & _).
  exists fmt. split; [done |].
  destruct (_unpack packet fmt) as [unpacked|e] eqn:Hun; cbn [res_bind].
  - by apply (process_packet_unsubscribed _ _ _ name fmt unpacked).
  - by apply (process_packet_undecoded _ _ _ name fmt).
Qed.

(** C2, as the code has it.  A packet with fewer bits than the fields of
    its stream's format add up to is refused by the decoder, which reads
    off the end of the data: the call ends with [ReadError], before the
    subscription test and before anything is assigned, so that the
    handler is as it was and the callback is not called. *)
Theorem short_packet_is_rejected handle name packet self :
  dict_get HANDLE_NAMES (KInt handle) = Ok name ->
  (packet_bits packet < total_width (stream_tokens chunk_size name))%nat ->
  exists fmt,
    dict_get (PACKET_FORMATS chunk_size) (KStr name) = Ok fmt
    /\ tokenparser fmt = Ok (stream_tokens chunk_size name)
    /\ process_packet handle packet self = Step self [] (Raise ReadError).
Proof.
  intros Hname Hlen.
  destruct (handle_format chunk_size _ _ Hname) as (fmt & Hfmt & Hts).
  exists fmt. repeat split; [done .. |].
  apply (process_packet_undecoded _ _ _ name fmt); [done .. |].
  by apply (unpack_short _ _ _ Hts).
Qed.

(** A packet that has bits beyond those of the format is decoded from
    its leading bits exactly as the packet without them is. *)
Lemma overlong_packet_is_decoded handle name packet extra self :
  dict_get HANDLE_NAMES (KInt handle) = Ok name ->
  (total_width (stream_tokens chunk_size name) <= packet_bits packet)%nat ->
  process_packet handle (packet ++ extra) self
  = process_packet handle packet self.
Proof.
  intros Hname Hlen.
  destruct (handle_format chunk_size _ _ Hname) as (fmt & Hfmt & Hts).
  unfold Muse2016.process_packet.
  rewrite Hname, !bind_lift_ok. cbv beta.
  rewrite Hfmt, !bind_lift_ok. cbv beta.
  by rewrite (unpack_surplus _ _ _ _ Hts Hlen).
Qed.

(** C5. On a subscribed stream other than the status stream (by
    [HANDLE_NAMES] the EEG, accelerometer, gyroscope and telemetry
    streams), a notification whose packet has the bits of its format is
    decoded and the call then ends with [KeyError] on ["numpy_dtypes"],
    which is not one of the four keys of [PARAMS]; a packet with fewer
    bits ends the call in the decoder.  Either way the exception comes
    before any assignment and before any call of the callback. *)
Theorem sensor_streams_raise_KeyError handle name packet self :
  dict_get HANDLE_NAMES (KInt handle) = Ok name ->
  name <> "status" ->
  name ∈ _subscriptions self ->
  obj_keys_of PARAMS
    = [KStr "manufacturer"; KStr "name"; KStr "streams"; KStr "ble"]
  /\ process_packet handle packet self
     = Step self []
         (Raise (if decide (packet_bits packet
                            < total_width (stream_tokens chunk_size name))%nat
                 then ReadError
                 else KeyError (KStr "numpy_dtypes"))).
Proof.
  intros Hname Hns Hsub.
  destruct (handle_format chunk_size _ _ Hname) as (fmt & Hfmt & Hts).
  split; [reflexivity |]. case_decide as Hlen.
  - apply (process_packet_undecoded _ _ _ name fmt); [done .. |].
    by apply (unpack_short _ _ _ Hts).
  - destruct (unpack_enough packet fmt _ Hts) as (unpacked & Hun & _);
      [lia |].
    by apply (process_packet_sensor _ _ _ name fmt unpacked).
Qed.

(** A run of notifications none of which is on the status handle. *)
Lemma sensor_run_is_silent (ns : list notification) : forall self,
  Forall (fun n => exists name,
            dict_get HANDLE_NAMES (KInt (fst n)) = Ok name
            /\ name <> "status") ns ->
  run (notify chunk_size literal_eval) ns self = (self, []).
Proof.
  induction ns as [|n ns IH]; intros self Hns; [done |].
  inversion Hns as [|? ? (name & Hname & Hneq) Hrest]; subst.
  assert (after (notify chunk_size literal_eval n self) = self
          /\ emitted (notify chunk_size literal_eval n self) = [])
    as [Hafter Hemitted]
    by (by apply (sensor_notification_is_silent _ _ _ name)).
  cbn [run]. rewrite Hafter, Hemitted. by rewrite IH.
Qed.

(** C1, on the code.  One notification on each of the five EEG handles,
    in the order of [EEG_HANDLE_RECEIVE_ORDER], whatever the packets and
    whether or not the stream is subscribed: the callback is not called,
    and no sample index and no chunk is written. *)
Theorem eeg_cycle_emits_nothing self p44 p41 p38 p32 p35 :
  run (notify chunk_size literal_eval)
      (zip EEG_HANDLE_RECEIVE_ORDER [p44; p41; p38; p32; p35]) self
  = (self, []).
Proof.
  apply sensor_run_is_silent.
  repeat constructor; cbn [fst]; exists "eeg"%string; by split.
Qed.

End Dispatch.

(* ===================================================================== *)
(** ** The status assembler                                               *)
(* ===================================================================== *)

Section Status.

Variable chunk_size : nat.
Variable literal_eval : str -> res obj.

Local Abbreviation _process_status :=
  (Muse2016._process_status literal_eval).
Local Abbreviation process_packet :=
  (Muse2016.process_packet chunk_size literal_eval).
Local Abbreviation newline := ("010"%char).

Lemma with_message_id self s :
  _message self = s -> with_message (fun _ => s) self = self.
Proof. destruct self. simpl. by intros ->. Qed.

(** The four ways a fragment is handled, by its valid content. *)

Lemma status_no_fields self :
  _process_status [] self = Step self [] (Raise IndexError).
Proof. reflexivity. Qed.

(** The start of [_process_status] on a fragment with a length field: the
    content is appended, and its last character is looked at. *)
Lemma status_appended n codes self :
  _process_status (n :: codes) self
  = bind (lift (getlast (fragment_content (n :: codes))))
      (fun c =>
         if decide (c = "}"%char) then
           bind (modify (with_message (remove_char newline))) (fun _ =>
           bind (gets _message) (fun message =>
           bind (lift (literal_eval message)) (fun record =>
           bind (_callback "status" (IScalar (-1)) (PRecord record)) (fun _ =>
           modify (with_message (fun _ => []))))))
         else ret tt)
      (with_message (fun m => m ++ fragment_content (n :: codes)) self).
Proof.
  unfold Muse2016._process_status. cbv zeta.
  change (getitem (n :: codes) 0) with (Ok n). by do 2 step.
Qed.

Lemma status_empty n codes self :
  fragment_content (n :: codes) = [] ->
  _process_status (n :: codes) self = Step self [] (Raise IndexError).
Proof.
  intros Hc. rewrite status_appended, Hc. cbn [getlast last]. step.
  f_equal. destruct self. unfold with_message. cbn. by rewrite app_nil_r.
Qed.

Lemma status_pending n codes self c :
  last (fragment_content (n :: codes)) = Some c ->
  c <> "}"%char ->
  _process_status (n :: codes) self
  = Step (with_message (fun m => m ++ fragment_content (n :: codes)) self)
         [] (Ok tt).
Proof.
  intros Hc Hne. rewrite status_appended. unfold getlast. rewrite Hc. step.
  by rewrite decide_False.
Qed.

Lemma status_complete n codes self record :
  ends_with_brace (fragment_content (n :: codes)) ->
  literal_eval
    (remove_char newline (_message self ++ fragment_content (n :: codes)))
  = Ok record ->
  _process_status (n :: codes) self
  = Step (with_message (fun _ => []) self)
         [Emit "status" (IScalar (-1)) (PRecord record)] (Ok tt).
Proof.
  unfold ends_with_brace. intros Hc Hparse.
  rewrite status_appended. unfold getlast. rewrite Hc. step.
  rewrite decide_True by done. do 2 step.
  cbn [_message with_message]. by step_with Hparse.
Qed.

Lemma status_garbled n codes self e :
  ends_with_brace (fragment_content (n :: codes)) ->
  literal_eval
    (remove_char newline (_message self ++ fragment_content (n :: codes)))
  = Raise e ->
  _process_status (n :: codes) self
  = Step (with_message
            (fun m => remove_char newline
                        (m ++ fragment_content (n :: codes))) self)
         [] (Raise e).
Proof.
  unfold ends_with_brace. intros Hc Hparse.
  rewrite status_appended. unfold getlast. rewrite Hc. step.
  rewrite decide_True by done. do 2 step.
  cbn [_message with_message]. by step_with Hparse.
Qed.

(** A fragment whose content does not end in a closing brace does not
    reach the callback. *)
Lemma status_unterminated unpacked self :
  ~ ends_with_brace (fragment_content unpacked) ->
  emitted (_process_status unpacked self) = [].
Proof.
  intros Hnb. destruct unpacked as [|n codes].
  - by rewrite status_no_fields.
  - destruct (last (fragment_content (n :: codes))) as [c|] eqn:Hlast.
    + rewrite (status_pending _ _ _ c); [done .. |].
      intros ->. by apply Hnb.
    + apply last_None in Hlast. by rewrite status_empty.
Qed.

(** C10. A status fragment whose length field is 0: its valid content
    is the empty text, and taking the last character of it, which comes
    before the comparison with the closing brace, raises [IndexError].
    Nothing was added to the status text and the callback is not
    called. *)
Theorem zero_length_fragment_raises_IndexError codes self :
  fragment_content (0 :: codes) = []
  /\ _process_status (0 :: codes) self = Step self [] (Raise IndexError).
Proof. split; [done |]. by apply status_empty. Qed.

(** C3, as the code has it.  When the content of a fragment ends in the
    closing brace and the accumulated text, line breaks removed, is not a
    literal, the call ends with the exception of [literal_eval] and the
    callback is not called; the statement that empties the status text
    is not reached, so the text stays: it is the accumulated text
    without its line breaks. *)
Theorem garbled_status_is_kept n codes self e :
  ends_with_brace (fragment_content (n :: codes)) ->
  literal_eval
    (remove_char newline (_message self ++ fragment_content (n :: codes)))
  = Raise e ->
  let s := _process_status (n :: codes) self in
  outcome s = Raise e
  /\ emitted s = []
  /\ _message (after s)
     = remove_char newline (_message self ++ fragment_content (n :: codes))
  /\ _sample_idxs (after s) = _sample_idxs self
  /\ _chunks (after s) = _chunks self.
Proof.
  intros Hend Hparse. cbn zeta.
  by rewrite (status_garbled _ _ _ e Hend Hparse).
Qed.

(** The only closing brace of the text of the record is its last
    character. *)
Lemma record_a1_prefix s1 s2 :
  s1 ++ s2 = record_a1_text -> s2 <> [] ->
  ~ ends_with_brace s1 /\ ends_with_brace s2
  /\ remove_char newline (s1 ++ s2) = record_a1_text.
Proof.
  intros Heq Hne. unfold ends_with_brace. split; [| split].
  - intros Hlast. apply last_Some in Hlast as [s1' ->].
    rewrite <- app_assoc in Heq.
    assert (record_a1_text !! length s1' = Some "}"%char) as Hlook
      by (rewrite <- Heq; by apply list_lookup_middle).
    assert (length s1' < 7)%nat as Hlen.
    { apply (f_equal length) in Heq. rewrite !length_app in Heq.
      destruct s2; [done |]. cbn in Heq. lia. }
    remember (length s1') as k eqn:Hk. clear Hk.
    do 7 (destruct k as [|k]; [vm_compute in Hlook; discriminate |]). lia.
  - apply (f_equal last) in Heq. rewrite last_app in Heq.
    destruct (last s2) eqn:Hl; [by rewrite Heq |].
    by apply last_None in Hl.
  - rewrite Heq. by vm_compute.
Qed.

Lemma run_unterminated (frags : list (list Z)) : forall self,
  Forall (fun u => ~ ends_with_brace (fragment_content u)) frags ->
  snd (run _process_status frags self) = [].
Proof.
  induction frags as [|u frags IH]; intros self Hall; [done |].
  inversion Hall; subst. cbn [run snd].
  rewrite status_unterminated by done. by rewrite IH.
Qed.

(** C6. The status text empty, two fragments whose contents, one after
    the other, are the text of [{"a": 1}], and a [literal_eval] that
    reads this text as the record: the two calls of the assembler make
    one call of the callback in all, for the stream "status", with
    sample index -1 and the record, and leave the status text empty.
    Fragments none of whose contents ends in a closing brace make no
    call of the callback, whatever the handler. *)
Theorem status_record_is_reassembled u1 u2 frags self self' :
  literal_eval record_a1_text = Ok record_a1 ->
  _message self = [] ->
  fragment_content u1 ++ fragment_content u2 = record_a1_text ->
  fragment_content u2 <> [] ->
  Forall (fun u => ~ ends_with_brace (fragment_content u)) frags ->
  run _process_status [u1; u2] self
  = (self, [Emit "status" (IScalar (-1)) (PRecord record_a1)])
  /\ snd (run _process_status frags self') = [].
Proof.
  intros Hparse Hmsg Hsplit Hne Hfrags.
  split; [| by apply run_unterminated].
  destruct (record_a1_prefix _ _ Hsplit Hne) as (Hopen & Hclose & Htext).
  destruct u2 as [|n2 codes2]; [done |].
  assert (forall s1 : PacketHandler,
            _message s1 = fragment_content u1 ->
            _subscriptions s1 = _subscriptions self ->
            _sample_idxs s1 = _sample_idxs self ->
            _chunks s1 = _chunks self ->
            Muse2016._process_status literal_eval (n2 :: codes2) s1
            = Step self [Emit "status" (IScalar (-1)) (PRecord record_a1)]
                   (Ok tt)) as Hsecond.
  { intros s1 Hm1 Hs1 Hi1 Hc1.
    rewrite (status_complete _ _ _ record_a1 Hclose)
      by (by rewrite Hm1, Htext).
    f_equal. destruct self, s1; simpl in *. by subst. }
  cbn [run fst snd].
  destruct u1 as [|n1 codes1].
  - rewrite status_no_fields. cbn [after emitted].
    rewrite Hsecond; [done | rewrite ?Hmsg; reflexivity ..].
  - destruct (last (fragment_content (n1 :: codes1))) as [c|] eqn:Hlast.
    + assert (c <> "}"%char) as Hc by (intros ->; by apply Hopen).
      rewrite (status_pending _ _ _ c Hlast Hc). cbn [after emitted].
      rewrite Hsecond; [done | simpl; rewrite ?Hmsg; reflexivity ..].
    + apply last_None in Hlast.
      rewrite (status_empty n1 codes1 self Hlast). cbn [after emitted].
      rewrite Hsecond; [done | rewrite ?Hmsg, ?Hlast; reflexivity ..].
Qed.

(** What follows [_process_status] in [process_packet]: the branch of
    the single-handle streams, entered with [data] unbound. *)
Lemma emit_single_unbound u0 rest self :
  emit_single "status" (u0 :: rest) None self
  = Step (with_sample_idxs <["status":=IScalar u0]> self) []
         (Raise (NameError "data")).
Proof. reflexivity. Qed.

Lemma process_packet_status packet self fmt unpacked :
  dict_get (PACKET_FORMATS chunk_size) (KStr "status") = Ok fmt ->
  _unpack packet fmt = Ok unpacked ->
  "status" ∈ _subscriptions self ->
  process_packet 14 packet self
  = let s := _process_status unpacked self in
    match outcome s with
    | Ok _ =>
        let s' := emit_single "status" unpacked None (after s) in
        Step (after s') (emitted s ++ emitted s') (outcome s')
    | Raise e => Step (after s) (emitted s) (Raise e)
    end.
Proof.
  intros Hfmt Hun Hsub. unfold Muse2016.process_packet.
  change (dict_get HANDLE_NAMES (KInt 14)) with (Ok "status"%string).
  step. step_with Hfmt. step_with Hun. step.
  rewrite decide_False by (intros Hn; by apply Hn).
  rewrite decide_True by done. rewrite bind_assoc, bind_step.
  destruct (outcome (_process_status unpacked self)) as [[]|e]; [| done].
  rewrite bind_ret. cbv beta. by rewrite decide_False.
Qed.

(** C9. On the subscribed status stream, a notification whose packet
    has the bits of the format is decoded and handed to
    [_process_status]; when that call returns, [process_packet] goes on
    into the branch shared by the single-handle streams, stores the first
    field as the sample index of "status", and then reads the local
    variable [data], which was bound on the other side of the
    conditional only: the call ends with [NameError] on [data], after
    whatever calls of the callback [_process_status] made.  When
    [_process_status] raises instead, that exception ends the call.
    Either way the call ends with an exception. *)
Theorem status_call_raises_NameError packet self :
  "status" ∈ _subscriptions self ->
  (total_width (stream_tokens chunk_size "status") <= packet_bits packet)%nat
  ->
  exists fmt unpacked u0,
    dict_get (PACKET_FORMATS chunk_size) (KStr "status") = Ok fmt
    /\ _unpack packet fmt = Ok unpacked
    /\ getitem unpacked 0 = Ok u0
    /\ process_packet 14 packet self
       = let s := _process_status unpacked self in
         Step (match outcome s with
               | Ok _ => with_sample_idxs <["status":=IScalar u0]> (after s)
               | Raise _ => after s
               end)
              (emitted s)
              (Raise (match outcome s with
                      | Ok _ => NameError "data"
                      | Raise e => e
                      end)).
Proof.
  intros Hsub Hlen.
  destruct (handle_format chunk_size 14 "status" eq_refl)
    as (fmt & Hfmt & Hts).
  destruct (unpack_enough _ _ _ Hts Hlen) as (unpacked & Hun & Hfields).
  destruct unpacked as [|u0 rest]; [done |].
  exists fmt, (u0 :: rest), u0. repeat split; [done .. |].
  rewrite (process_packet_status _ _ _ _ Hfmt Hun Hsub). cbn zeta.
  destruct (outcome (_process_status (u0 :: rest) self)) as [[]|e];
    [| done].
  rewrite emit_single_unbound. cbn [after emitted outcome].
  by rewrite app_nil_r.
Qed.

End Status.

(* ===================================================================== *)
(** ** The conversion of the EEG samples                                  *)
(* ===================================================================== *)

Section Conversion.

(** The values of a 12-bit field, one by one. *)
Lemma eeg_element_exact_all :
  forallb eeg_element_exact (map Z.of_nat (seq 0 4096)) = true.
Proof. vm_compute. reflexivity. Qed.

Lemma eeg_element_value raw :
  0 <= raw < 4096 ->
  exists q, F32.to_Q (convert_eeg_element (F32.of_Z raw)) = Some q
            /\ (q == eeg_microvolts raw)%Q.
Proof.
  intros Hraw.
  assert (eeg_element_exact raw = true) as Hcheck.
  { apply (proj1 (forallb_forall _ _) eeg_element_exact_all).
    apply in_map_iff. exists (Z.to_nat raw). split; [lia |].
    apply in_seq. lia. }
  unfold eeg_element_exact in Hcheck.
  destruct (F32.to_Q (convert_eeg_element (F32.of_Z raw))) as [q|];
    [| discriminate].
  exists q. split; [done |]. by apply Qeq_bool_iff.
Qed.

(** C7. The conversion function of the EEG stream, on the array made
    from decoded 12-bit samples, is element by element
    0.48828125 * (raw - 2048): it returns an array of the same length
    whose elements denote exactly these numbers, the single precision
    arithmetic rounding nothing away.  A sample of 2048 gives 0.0 and a
    sample of 4095 gives 0.48828125 * (4095 - 2048), which is
    999.51171875. *)
Theorem eeg_conversion_is_exact (raws : list Z) :
  Forall (fun raw => 0 <= raw < 4096) raws ->
  np_array raws (OStr "float32") = Ok (map F32.of_Z raws)
  /\ convert_eeg (map F32.of_Z raws)
     = Ok (Some (Vec (map (fun raw => convert_eeg_element (F32.of_Z raw))
                          raws)))
  /\ Forall (fun raw =>
               exists q,
                 F32.to_Q (convert_eeg_element (F32.of_Z raw)) = Some q
                 /\ (q == eeg_microvolts raw)%Q) raws
  /\ convert_eeg [F32.of_Z 2048] = Ok (Some (Vec [S754_zero false]))
  /\ (exists x q, convert_eeg [F32.of_Z 4095] = Ok (Some (Vec [x]))
                  /\ F32.to_Q x = Some q
                  /\ (q == eeg_microvolts 4095)%Q
                  /\ (q == 99951171875 # 100000000)%Q).
Proof.
  intros Hraws. repeat split.
  - unfold convert_eeg. by rewrite map_map.
  - eapply Forall_impl; [exact Hraws |]. intros raw Hraw.
    by apply eeg_element_value.
  - do 2 eexists. split; [reflexivity |]. split; [reflexivity |].
    split; by vm_compute.
Qed.

End Conversion.

(* ===================================================================== *)
(** ** The branch of the split stream                                     *)
(* ===================================================================== *)

(** [process_packet] does not get to this branch (the lookup of the
    element type raises before it); the facts below are about the branch
    itself, entered with [data] bound. *)
Section Split.

Ltac step_res :=
  match goal with
  | |- context [bind (lift ?r) _ _] =>
      let H := fresh "Hres" in destruct r eqn:H; step
  end.

(** The callback is reached on the last handle of
    [EEG_HANDLE_RECEIVE_ORDER] only. *)
Lemma assemble_split_waits handle name unpacked data self :
  handle <> 35 ->
  emitted (assemble_split handle name unpacked data self) = [].
Proof.
  intros Hh. unfold assemble_split.
  repeat (first [step | step_res]); try done.
  match goal with
  | H : getlast EEG_HANDLE_RECEIVE_ORDER = _ |- _ =>
      vm_compute in H; injection H as <-
  end.
  by destruct (decide (handle = 35)).
Qed.

Lemma assemble_waits_run (ns : list (Z * list Z * list F32.t)) : forall self,
  Forall (fun n => n.1.1 <> 35) ns ->
  snd (run assemble ns self) = [].
Proof.
  induction ns as [|n ns IH]; intros self Hns; [done |].
  inversion Hns; subst. cbn [run snd]. unfold assemble at 1.
  rewrite assemble_split_waits by done. by rewrite IH.
Qed.

(** On that handle the chunk is handed over as it is, whether or not the
    other four rows were written since the last call of the callback. *)
Lemma assemble_split_flushes_on_last_handle :
  let zero := F32.of_Z 0 in
  let self :=
    {| _subscriptions := ["eeg"%string];
       _sample_idxs := {["eeg"%string := IArray [0; 0; 0; 0; 0]]};
       _chunks := {["eeg"%string := repeat [zero; zero] 5]};
       _message := [] |} in
  let data := [F32.of_Z 2049; F32.of_Z 2050] in
  emitted (assemble_split 35 "eeg" [7; 2049; 2050] (Some data) self)
  = [Emit "eeg" (IArray [0; 7; 0; 0; 0])
          (PChunk [ [zero; zero];
                    map convert_eeg_element data;
                    [zero; zero]; [zero; zero]; [zero; zero] ])].
Proof. by vm_compute. Qed.

(** One notification, when the handler has an array of sample indices and
    a chunk for the stream and the payload fits the row of its handle. *)
Lemma set_row_vec (chunk : matrix) idx old (v : list F32.t) :
  chunk !! idx = Some old -> length v = length old ->
  set_row chunk idx (Some (Vec v)) = Ok (<[idx:=v]> chunk).
Proof.
  intros Hold Hlen. unfold set_row. rewrite Hold.
  cbn [broadcast]. unfold broadcast_row. by rewrite decide_True.
Qed.

Lemma assemble_step handle idx u0 rest d self sidx chunk old :
  dict_get EEG_HANDLE_CH_IDXS (KInt handle) = Ok idx ->
  _sample_idxs self !! "eeg" = Some (IArray sidx) ->
  (idx < length sidx)%nat ->
  _chunks self !! "eeg" = Some chunk ->
  chunk !! idx = Some old ->
  length d = length old ->
  assemble (handle, u0 :: rest, d) self
  = Step (with_chunks <["eeg":=<[idx:=map convert_eeg_element d]> chunk]>
            (with_sample_idxs <["eeg":=IArray (<[idx:=u0]> sidx)]> self))
         (if decide (handle = 35)
          then [Emit "eeg" (IArray (<[idx:=u0]> sidx))
                     (PChunk (<[idx:=map convert_eeg_element d]> chunk))]
          else [])
         (Ok tt).
Proof.
  intros Hidx Hs Hlt Hc Hold Hlen.
  unfold assemble, assemble_split. cbn [fst snd].
  step_with Hidx.
  change (getitem (u0 :: rest) 0) with (Ok u0). do 2 step.
  unfold attr_get at 1. step_with Hs.
  unfold setitem. rewrite decide_True by done. cbn [res_bind]. do 2 step.
  change (dict_get CONVERT_FUNCS (KStr "eeg")) with (Ok convert_eeg). step.
  cbn [read_local]. step.
  change (convert_eeg d)
    with (Ok (Some (Vec (map convert_eeg_element d)))). do 2 step.
  cbn [_chunks with_sample_idxs]. unfold attr_get at 1. step_with Hc.
  rewrite (set_row_vec chunk idx old) by (by rewrite ?length_map).
  do 2 step.
  change (getlast EEG_HANDLE_RECEIVE_ORDER) with (Ok 35). step.
  case_decide; [| done].
  step. cbn [_sample_idxs _chunks with_chunks with_sample_idxs].
  unfold attr_get. rewrite lookup_insert_eq. do 2 step.
  cbn [_chunks with_chunks]. rewrite lookup_insert_eq. by step.
Qed.

Ltac cycle_step h i :=
  erewrite (assemble_step h i);
  [ cbn [after emitted]
  | reflexivity
  | first [ eassumption
          | cbn [_sample_idxs with_chunks with_sample_idxs];
            apply lookup_insert_eq ]
  | cbn; lia
  | first [ eassumption
          | cbn [_chunks with_chunks with_sample_idxs];
            apply lookup_insert_eq ]
  | reflexivity
  | cbn; congruence ].

(** One notification per handle in the order of receipt: the callback is
    called once, on the last, with the five sample indices and the five
    converted payloads, each in the row of its handle. *)
Lemma assemble_full_cycle self s0 s1 s2 s3 s4 r0 r1 r2 r3 r4
    (i44 i41 i38 i32 i35 : Z) (x44 x41 x38 x32 x35 : list Z)
    (d44 d41 d38 d32 d35 : list F32.t) :
  _sample_idxs self !! "eeg" = Some (IArray [s0; s1; s2; s3; s4]) ->
  _chunks self !! "eeg" = Some [r0; r1; r2; r3; r4] ->
  length d32 = length r0 -> length d35 = length r1 ->
  length d38 = length r2 -> length d41 = length r3 ->
  length d44 = length r4 ->
  snd (run assemble
         [ (44, i44 :: x44, d44); (41, i41 :: x41, d41);
           (38, i38 :: x38, d38); (32, i32 :: x32, d32);
           (35, i35 :: x35, d35) ] self)
  = [Emit "eeg" (IArray [i32; i35; i38; i41; i44])
          (PChunk (map (map convert_eeg_element)
                       [d32; d35; d38; d41; d44]))].
Proof.
  intros Hs Hc H0 H1 H2 H3 H4. cbn [run snd].
  cycle_step 44 4%nat. cycle_step 41 3%nat. cycle_step 38 2%nat.
  cycle_step 32 0%nat. cycle_step 35 1%nat.
  reflexivity.
Qed.

End Split.

(* ===================================================================== *)
(** ** The properties on concrete notifications                           *)
(* ===================================================================== *)

(** A decidable proposition, settled by evaluating its decision. *)
Ltac by_computation :=
  match goal with
  | |- ?P => refine (bool_decide_unpack P _); vm_compute; reflexivity
  end.

(** Handle 15 is not a key of [HANDLE_NAMES]. *)
Lemma unknown_source_is_rejected_at_15 :
  (KInt 15 ∉ dict_keys HANDLE_NAMES)
  /\ Muse2016.process_packet 12 Literal.literal_eval 15 [x01; x02]
       (fresh_handler ["status"%string])
     = Step (fresh_handler ["status"%string]) []
            (Raise (KeyError (KInt 15))).
Proof.
  assert (KInt 15 ∉ dict_keys HANDLE_NAMES) as Hkey
    by by_computation.
  split; [exact Hkey |].
  exact (unknown_source_is_rejected 12 Literal.literal_eval 15 [x01; x02]
           (fresh_handler ["status"%string]) Hkey).
Defined.

(** A status packet for a handler subscribed to the EEG stream only. *)
Lemma unsubscribed_stream_is_decoded_only_at_status :
  exists fmt,
    dict_get (PACKET_FORMATS 12) (KStr "status") = Ok fmt
    /\ Muse2016.process_packet 12 Literal.literal_eval 14
         (fragment_packet (text "{}")) (fresh_handler ["eeg"%string])
       = Step (fresh_handler ["eeg"%string]) []
              (res_bind (_unpack (fragment_packet (text "{}")) fmt)
                        (fun _ => Ok tt)).
Proof.
  apply (unsubscribed_stream_is_decoded_only 12 Literal.literal_eval 14
           (fragment_packet (text "{}")) (fresh_handler ["eeg"%string])
           "status").
  - reflexivity.
  - by_computation.
Defined.

(** C2, the claim as written.  A status packet of 21 bytes, one more than
    the twenty 8-bit fields of the format: the decoder reads the first 20
    bytes and does not look at the last.  With the stream not subscribed
    the call returns normally; with the stream subscribed the content of
    the fragment is added to the status text. *)
Lemma overlong_packet_is_accepted :
  let packet := fragment_packet (text "x") ++ [x00] in
  packet_bits packet = 168%nat
  /\ total_width (stream_tokens 12 "status") = 160%nat
  /\ Muse2016.process_packet 12 Literal.literal_eval 14 packet
       (fresh_handler [])
     = Step (fresh_handler []) [] (Ok tt)
  /\ _message (after (Muse2016.process_packet 12 Literal.literal_eval 14
                        packet (fresh_handler ["status"%string])))
     = text "x".
Proof. vm_compute. repeat split; reflexivity. Qed.

(** An EEG packet of 19 bytes, where the format has 160 bits. *)
Lemma short_packet_is_rejected_at_eeg :
  exists fmt,
    dict_get (PACKET_FORMATS 12) (KStr "eeg") = Ok fmt
    /\ tokenparser fmt = Ok (stream_tokens 12 "eeg")
    /\ Muse2016.process_packet 12 Literal.literal_eval 32 (repeat x00 19)
         (fresh_handler ["eeg"%string])
       = Step (fresh_handler ["eeg"%string]) [] (Raise ReadError).
Proof.
  apply (short_packet_is_rejected 12 Literal.literal_eval 32 "eeg"
           (repeat x00 19) (fresh_handler ["eeg"%string])).
  - reflexivity.
  - vm_compute. lia.
Defined.

(** An EEG packet of 20 bytes on handle 32, the stream subscribed. *)
Lemma sensor_streams_raise_KeyError_at_eeg :
  obj_keys_of PARAMS
    = [KStr "manufacturer"; KStr "name"; KStr "streams"; KStr "ble"]
  /\ Muse2016.process_packet 12 Literal.literal_eval 32 (repeat x08 20)
       (fresh_handler ["eeg"%string])
     = Step (fresh_handler ["eeg"%string]) []
         (Raise (if decide (packet_bits (repeat x08 20)
                            < total_width (stream_tokens 12 "eeg"))%nat
                 then ReadError
                 else KeyError (KStr "numpy_dtypes"))).
Proof.
  apply (sensor_streams_raise_KeyError 12 Literal.literal_eval 32 "eeg"
           (repeat x08 20) (fresh_handler ["eeg"%string])).
  - reflexivity.
  - discriminate.
  - by_computation.
Defined.

(** C5, the claim as written.  An EEG packet of 19 bytes on handle 32,
    the stream subscribed: the packet has 152 bits where the format has
    160, the decoder raises [ReadError] on line 125, and the call ends
    there: it does not reach the lookup of ["numpy_dtypes"] and the
    exception is not a [KeyError]. *)
Lemma short_sensor_packet_raises_ReadError :
  let self := fresh_handler ["eeg"%string] in
  let packet := repeat x08 19 in
  let s := Muse2016.process_packet 12 Literal.literal_eval 32 packet self in
  dict_get HANDLE_NAMES (KInt 32) = Ok "eeg"%string
  /\ "eeg"%string ∈ _subscriptions self
  /\ packet_bits packet = 152%nat
  /\ total_width (stream_tokens 12 "eeg") = 160%nat
  /\ s = Step self [] (Raise ReadError)
  /\ (forall k, outcome s <> Raise (KeyError k)).
Proof.
  cbv zeta. split; [reflexivity |]. split; [by_computation |].
  split; [by vm_compute |]. split; [by vm_compute |].
  split; [by vm_compute |]. intros k. vm_compute. discriminate.
Qed.

(** The failing input of C1: the five EEG handles in the order of receipt,
    a packet of 20 bytes on each, the stream subscribed.  Every call ends
    with the [KeyError] and none reaches the callback. *)
Lemma eeg_cycle_example :
  let self := fresh_handler ["eeg"%string] in
  let packet := repeat x08 20 in
  Forall (fun handle =>
            Muse2016.process_packet 12 Literal.literal_eval handle packet self
            = Step self [] (Raise (KeyError (KStr "numpy_dtypes"))))
         EEG_HANDLE_RECEIVE_ORDER
  /\ run (notify 12 Literal.literal_eval)
         (zip EEG_HANDLE_RECEIVE_ORDER (repeat packet 5)) self
     = (self, []).
Proof. split; [repeat constructor |]; by vm_compute. Qed.

(** C3, the claim as written.  The status text empty and one fragment
    whose content is a closing brace: the text "}" is not a literal, the
    call ends with the exception of [literal_eval] and the callback is not
    called, but the status text is not emptied: it is "}" afterwards. *)
Lemma garbled_status_is_not_discarded :
  let unpacked := fragment_fields (text "}") in
  let s := _process_status Literal.literal_eval unpacked
             (fresh_handler ["status"%string]) in
  ends_with_brace (fragment_content unpacked)
  /\ outcome s = Raise SyntaxError
  /\ emitted s = []
  /\ _message (after s) = text "}"
  /\ _message (after s) <> [].
Proof. vm_compute. repeat split; (reflexivity || discriminate). Qed.

Lemma garbled_status_is_kept_at_brace :
  let unpacked := fragment_fields (text "}") in
  let s := _process_status Literal.literal_eval unpacked
             (fresh_handler ["status"%string]) in
  outcome s = Raise SyntaxError
  /\ emitted s = []
  /\ _message (after s)
     = remove_char "010"%char
         (_message (fresh_handler ["status"%string])
          ++ fragment_content unpacked)
  /\ _sample_idxs (after s) = _sample_idxs (fresh_handler ["status"%string])
  /\ _chunks (after s) = _chunks (fresh_handler ["status"%string]).
Proof.
  apply (garbled_status_is_kept Literal.literal_eval 1
           (map code_of (text "}" ++ repeat "000"%char 18))
           (fresh_handler ["status"%string]) SyntaxError).
  - vm_compute. reflexivity.
  - vm_compute. reflexivity.
Defined.

(** The text of [{"a": 1}] in two fragments of four characters, and two
    fragments without a closing brace. *)
Lemma status_record_is_reassembled_in_halves :
  let u1 := fragment_fields (firstn 4 record_a1_text) in
  let u2 := fragment_fields (skipn 4 record_a1_text) in
  let self := fresh_handler ["status"%string] in
  run (_process_status Literal.literal_eval) [u1; u2] self
  = (self, [Emit "status" (IScalar (-1)) (PRecord record_a1)])
  /\ snd (run (_process_status Literal.literal_eval)
              [fragment_fields (text "{'a': "); fragment_fields (text "1, ")]
              self) = [].
Proof.
  apply (status_record_is_reassembled Literal.literal_eval).
  - vm_compute. reflexivity.
  - reflexivity.
  - vm_compute. reflexivity.
  - vm_compute. discriminate.
  - repeat constructor; vm_compute; discriminate.
Defined.

(** A status packet that carries a whole record: the callback is called
    with it, and the call ends with [NameError]. *)
Lemma status_call_raises_NameError_after_record :
  exists fmt unpacked u0,
    dict_get (PACKET_FORMATS 12) (KStr "status") = Ok fmt
    /\ _unpack (fragment_packet record_a1_text) fmt = Ok unpacked
    /\ getitem unpacked 0 = Ok u0
    /\ Muse2016.process_packet 12 Literal.literal_eval 14
         (fragment_packet record_a1_text) (fresh_handler ["status"%string])
       = let s := _process_status Literal.literal_eval unpacked
                    (fresh_handler ["status"%string]) in
         Step (match outcome s with
               | Ok _ => with_sample_idxs <["status":=IScalar u0]> (after s)
               | Raise _ => after s
               end)
              (emitted s)
              (Raise (match outcome s with
                      | Ok _ => NameError "data"
                      | Raise e => e
                      end)).
Proof.
  apply (status_call_raises_NameError 12 Literal.literal_eval
           (fragment_packet record_a1_text) (fresh_handler ["status"%string])).
  - by_computation.
  - vm_compute. lia.
Defined.

Lemma status_record_then_NameError :
  Muse2016.process_packet 12 Literal.literal_eval 14
    (fragment_packet record_a1_text) (fresh_handler ["status"%string])
  = Step (with_sample_idxs <["status":=IScalar 8]>
            (fresh_handler ["status"%string]))
         [Emit "status" (IScalar (-1)) (PRecord record_a1)]
         (Raise (NameError "data")).
Proof. by vm_compute. Qed.

(** The samples 2048, 4095 and 0. *)
Lemma eeg_conversion_is_exact_at_samples :
  np_array [2048; 4095; 0] (OStr "float32")
  = Ok (map F32.of_Z [2048; 4095; 0])
  /\ convert_eeg (map F32.of_Z [2048; 4095; 0])
     = Ok (Some (Vec (map (fun raw => convert_eeg_element (F32.of_Z raw))
                          [2048; 4095; 0])))
  /\ Forall (fun raw =>
               exists q,
                 F32.to_Q (convert_eeg_element (F32.of_Z raw)) = Some q
                 /\ (q == eeg_microvolts raw)%Q) [2048; 4095; 0]
  /\ convert_eeg [F32.of_Z 2048] = Ok (Some (Vec [S754_zero false]))
  /\ (exists x q, convert_eeg [F32.of_Z 4095] = Ok (Some (Vec [x]))
                  /\ F32.to_Q x = Some q
                  /\ (q == eeg_microvolts 4095)%Q
                  /\ (q == 99951171875 # 100000000)%Q).
Proof.
  apply (eeg_conversion_is_exact [2048; 4095; 0]).
  repeat constructor; lia.
Defined.

(* ===================================================================== *)
(** ** The decoder, field by field                                        *)
(* ===================================================================== *)

Section Decoder.

Variable chunk_size : nat.

Local Abbreviation shift := (fun acc (b : bool) => 2 * acc + (if b then 1 else 0)).

(** Bits read after an accumulated value push it to the left. *)
Lemma uint_shift bs : forall acc,
  fold_left shift bs acc = acc * 2 ^ Z.of_nat (length bs) + uint_of_bits bs.
Proof.
  unfold uint_of_bits.
  induction bs as [|b bs IH]; intros acc; cbn [fold_left length].
  - change (2 ^ Z.of_nat 0) with 1. lia.
  - rewrite IH, (IH (2 * 0 + _)), Nat2Z.inj_succ, Z.pow_succ_r by lia.
    destruct b; lia.
Qed.

Lemma uint_of_bits_range bs :
  0 <= uint_of_bits bs < 2 ^ Z.of_nat (length bs).
Proof.
  induction bs as [|b bs IH].
  - by vm_compute.
  - unfold uint_of_bits. cbn [fold_left length].
    rewrite uint_shift, Nat2Z.inj_succ, Z.pow_succ_r by lia.
    destruct b; lia.
Qed.

Lemma uint_of_bits_app bs1 bs2 :
  uint_of_bits (bs1 ++ bs2)
  = uint_of_bits bs1 * 2 ^ Z.of_nat (length bs2) + uint_of_bits bs2.
Proof. unfold uint_of_bits at 1. by rewrite fold_left_app, uint_shift. Qed.

Lemma int_of_bits_range bs :
  - 2 ^ Z.of_nat (length bs - 1) <= int_of_bits bs
  < 2 ^ Z.of_nat (length bs - 1).
Proof.
  destruct bs as [|b bs]; [by vm_compute |].
  cbn [length]. replace (S (length bs) - 1)%nat with (length bs) by lia.
  pose proof (uint_of_bits_range bs) as Hr.
  destruct b; cbn [int_of_bits].
  - unfold uint_of_bits. cbn [fold_left length].
    rewrite uint_shift, Nat2Z.inj_succ, Z.pow_succ_r by lia. lia.
  - unfold uint_of_bits. cbn [fold_left]. rewrite uint_shift. lia.
Qed.

Lemma interpret_range t bs :
  length bs = width t -> in_range t (interpret t bs).
Proof.
  intros Hlen. destruct t as [n|n]; cbn [in_range interpret width] in *.
  - rewrite <- Hlen. apply uint_of_bits_range.
  - rewrite <- Hlen. apply int_of_bits_range.
Qed.

Lemma readlist_range ts : forall bs vs,
  readlist ts bs = Ok vs -> Forall2 in_range ts vs.
Proof.
  induction ts as [|t ts IH]; intros bs vs; cbn [readlist].
  - intros [= <-]. constructor.
  - unfold readtoken. case_decide as Hlen; [done |]. cbn [res_bind fst snd].
    destruct (readlist ts (skipn (width t) bs)) as [vs'|] eqn:Hrest; [| done].
    cbn [res_bind]. intros [= <-]. constructor; [| by eapply IH].
    apply interpret_range. rewrite length_firstn. lia.
Qed.

(** X1. A packet that has the bits of its stream's format decodes into
    exactly one integer per field of the format, each within the range of
    its field: [0, 2^n) for an unsigned field of [n] bits, [-2^(n-1),
    2^(n-1)) for a signed one. *)
Theorem unpack_fields_in_range handle name packet :
  dict_get HANDLE_NAMES (KInt handle) = Ok name ->
  (total_width (stream_tokens chunk_size name) <= packet_bits packet)%nat ->
  exists fmt unpacked,
    dict_get (PACKET_FORMATS chunk_size) (KStr name) = Ok fmt
    /\ _unpack packet fmt = Ok unpacked
    /\ length unpacked = length (stream_tokens chunk_size name)
    /\ Forall2 in_range (stream_tokens chunk_size name) unpacked.
Proof.
  intros Hname Hlen.
  destruct (handle_format chunk_size _ _ Hname) as (fmt & Hfmt & Hts).
  destruct (unpack_enough _ _ _ Hts Hlen) as (unpacked & Hun & Hfields).
  exists fmt, unpacked. repeat split; [done .. |].
  unfold _unpack, unpack in Hun. rewrite Hts in Hun. cbn [res_bind] in Hun.
  by eapply readlist_range.
Qed.

(** X2. Decoding looks at the leading bits of a packet only: bytes after
    those that the format of the stream covers do not change the decoded
    fields. *)
Theorem unpack_ignores_surplus handle name packet extra :
  dict_get HANDLE_NAMES (KInt handle) = Ok name ->
  (total_width (stream_tokens chunk_size name) <= packet_bits packet)%nat ->
  exists fmt,
    dict_get (PACKET_FORMATS chunk_size) (KStr name) = Ok fmt
    /\ _unpack (packet ++ extra) fmt = _unpack packet fmt.
Proof.
  intros Hname Hlen.
  destruct (handle_format chunk_size _ _ Hname) as (fmt & Hfmt & Hts).
  exists fmt. split; [done |]. by apply (unpack_surplus _ _ _ _ Hts).
Qed.

Lemma uint_of_bits_split n bs :
  (n <= length bs)%nat ->
  uint_of_bits (firstn n bs)
  = uint_of_bits bs / 2 ^ Z.of_nat (length bs - n)
  /\ uint_of_bits (skipn n bs)
     = uint_of_bits bs mod 2 ^ Z.of_nat (length bs - n).
Proof.
  intros Hn.
  pose proof (uint_of_bits_app (firstn n bs) (skipn n bs)) as Happ.
  rewrite firstn_skipn, length_skipn in Happ.
  pose proof (uint_of_bits_range (skipn n bs)) as Hlow.
  rewrite length_skipn in Hlow.
  split.
  - apply (Z.div_unique_pos _ _ _ (uint_of_bits (skipn n bs))); lia.
  - apply (Z.mod_unique_pos _ _ (uint_of_bits (firstn n bs))); lia.
Qed.

Lemma interpret_field_value t bs :
  length bs = width t ->
  interpret t bs = field_value t (uint_of_bits bs).
Proof.
  intros Hlen. destruct t as [n|n]; cbn [interpret field_value width] in *;
    [done |].
  destruct bs as [|b bs]; cbn [length] in Hlen; subst n.
  - by vm_compute.
  - replace (S (length bs) - 1)%nat with (length bs) by lia.
    pose proof (uint_of_bits_range bs) as Hr.
    assert (uint_of_bits (b :: bs)
            = (if b then 1 else 0) * 2 ^ Z.of_nat (length bs)
              + uint_of_bits bs) as Hval.
    { unfold uint_of_bits at 1. cbn [fold_left]. rewrite uint_shift.
      destruct b; lia. }
    cbn [int_of_bits length]. rewrite Hval.
    rewrite Nat2Z.inj_succ, Z.pow_succ_r by lia.
    destruct b; case_match; lia.
Qed.

Lemma readlist_peel ts : forall bs,
  (total_width ts <= length bs)%nat ->
  readlist ts bs = Ok (peel ts (uint_of_bits bs) (length bs)).
Proof.
  induction ts as [|t ts IH]; intros bs Hlen; cbn [readlist peel]; [done |].
  cbn [total_width foldr] in Hlen. fold (total_width ts) in Hlen.
  unfold readtoken. rewrite decide_False by lia. cbn [res_bind fst snd].
  destruct (uint_of_bits_split (width t) bs) as [Hhigh Hlow]; [lia |].
  rewrite IH by (rewrite length_skipn; lia). cbn [res_bind].
  rewrite length_skipn, Hlow, <- Hhigh.
  by rewrite interpret_field_value by (rewrite length_firstn; lia).
Qed.

Lemma uint_of_byte b : uint_of_bits (bits_of_byte b) = byte_value b.
Proof. by destruct b. Qed.

Lemma fold_bytes packet : forall acc,
  fold_left shift (of_bytes packet) acc
  = fold_left (fun acc b => 256 * acc + Z.of_N (Byte.to_N b)) packet acc.
Proof.
  unfold of_bytes. induction packet as [|b p IH]; intros acc; [done |].
  cbn [flat_map fold_left]. rewrite fold_left_app, IH. f_equal.
  rewrite uint_shift, uint_of_byte. unfold byte_value.
  change (Z.of_nat (length (bits_of_byte b))) with 8. lia.
Qed.

Lemma uint_of_bytes packet :
  uint_of_bits (of_bytes packet) = big_endian packet.
Proof. apply fold_bytes. Qed.

(** X3. The decoded fields are those that arithmetic on the packet read
    as one big-endian number gives: the first field is the quotient of the
    number by the weight of the bits after the field, the next fields come
    the same way from the remainder, and a signed field whose leading bit
    is set is its bits minus 2^n. *)
Theorem unpack_is_big_endian_arithmetic handle name packet :
  dict_get HANDLE_NAMES (KInt handle) = Ok name ->
  (total_width (stream_tokens chunk_size name) <= packet_bits packet)%nat ->
  exists fmt,
    dict_get (PACKET_FORMATS chunk_size) (KStr name) = Ok fmt
    /\ _unpack packet fmt
       = Ok (peel (stream_tokens chunk_size name) (big_endian packet)
                  (packet_bits packet)).
Proof.
  intros Hname Hlen.
  destruct (handle_format chunk_size _ _ Hname) as (fmt & Hfmt & Hts).
  exists fmt. split; [done |].
  unfold _unpack, unpack. rewrite Hts. cbn [res_bind].
  rewrite readlist_peel by (by rewrite length_of_bytes).
  by rewrite uint_of_bytes, length_of_bytes.
Qed.

Lemma read_byte b rest :
  firstn 8 (bits_of_byte b ++ rest) = bits_of_byte b
  /\ skipn 8 (bits_of_byte b ++ rest) = rest.
Proof. split; reflexivity. Qed.

Lemma readlist_bytes k : forall packet,
  (k <= length packet)%nat ->
  readlist (repeat (uint 8) k) (of_bytes packet)
  = Ok (map byte_value (firstn k packet)).
Proof.
  induction k as [|k IH]; intros packet Hk; [done |].
  destruct packet as [|b p]; cbn [length] in Hk; [lia |].
  cbn [repeat readlist]. unfold readtoken, of_bytes. cbn [flat_map width].
  rewrite decide_False by (rewrite length_app; cbn; lia).
  cbn [res_bind fst snd interpret].
  destruct (read_byte b (flat_map bits_of_byte p)) as [-> ->].
  rewrite uint_of_byte. fold (of_bytes p). by rewrite IH by lia.
Qed.

Lemma status_unpack_bytes packet fmt :
  dict_get (PACKET_FORMATS chunk_size) (KStr "status") = Ok fmt ->
  (20 <= length packet)%nat ->
  _unpack packet fmt = Ok (map byte_value (firstn 20 packet)).
Proof.
  intros Hfmt Hlen.
  destruct (handle_format chunk_size 14 "status" eq_refl)
    as (fmt' & Hfmt' & Hts).
  assert (fmt' = fmt) as -> by congruence.
  unfold _unpack, unpack. rewrite Hts. cbn [res_bind].
  by apply (readlist_bytes 20).
Qed.

(** X4. The twenty fields of a status packet are the numbers of its
    first twenty bytes, in order: the length field is the first byte and
    the character codes are the nineteen bytes after it. *)
Theorem status_fields_are_bytes packet :
  (20 <= length packet)%nat ->
  exists fmt,
    dict_get (PACKET_FORMATS chunk_size) (KStr "status") = Ok fmt
    /\ _unpack packet fmt = Ok (map byte_value (firstn 20 packet)).
Proof.
  intros Hlen.
  destruct (handle_format chunk_size 14 "status" eq_refl)
    as (fmt & Hfmt & _).
  exists fmt. split; [done |]. by apply status_unpack_bytes.
Qed.

End Decoder.

(* ===================================================================== *)
(** ** The packet formats, stream by stream                               *)
(* ===================================================================== *)

Section FormatTable.

Variable chunk_size : nat.

(** X5. Every stream has a packet format that bitstring can read: the
    EEG format is a 16-bit field followed by one 12-bit field per sample,
    16 + 12 n bits for n samples; the telemetry format has 80 bits, ten
    bytes; the accelerometer, gyroscope and status formats have 160 bits,
    twenty bytes, each. *)
Theorem packet_formats_are_well_formed name :
  name ∈ STREAMS ->
  exists fmt,
    dict_get (PACKET_FORMATS chunk_size) (KStr name) = Ok fmt
    /\ tokenparser fmt = Ok (stream_tokens chunk_size name)
    /\ total_width (stream_tokens chunk_size name)
       = (if decide (name = "eeg") then 16 + 12 * chunk_size
          else if decide (name = "telemetry") then 80 else 160)%nat.
Proof.
  intros Hname.
  destruct (stream_format chunk_size name Hname) as (fmt & Hfmt & Hts).
  exists fmt. repeat split; [done .. |].
  case_decide as Heeg; [subst; apply eeg_width |].
  unfold STREAMS in Hname.
  repeat (apply elem_of_cons in Hname as [-> | Hname]);
    try (by apply elem_of_nil in Hname); try congruence;
    vm_compute; reflexivity.
Qed.

End FormatTable.

(* ===================================================================== *)
(** ** The status assembler over many fragments                           *)
(* ===================================================================== *)

Section Reassembly.

Variable literal_eval : str -> res obj.

Local Abbreviation _process_status :=
  (Muse2016._process_status literal_eval).
Local Abbreviation newline := ("010"%char).

Lemma run_app {X} (f : X -> M unit) (xs ys : list X) : forall self,
  run f (xs ++ ys) self
  = (fst (run f ys (fst (run f xs self))),
     snd (run f xs self) ++ snd (run f ys (fst (run f xs self)))).
Proof.
  induction xs as [|x xs IH]; intros self; cbn [app run fst snd].
  - by destruct (run f ys self).
  - rewrite IH. cbn [fst snd]. by rewrite app_assoc.
Qed.

Lemma with_message_app self a b :
  with_message (fun m => m ++ b) (with_message (fun m => m ++ a) self)
  = with_message (fun m => m ++ (a ++ b)) self.
Proof. destruct self. unfold with_message. cbn. by rewrite app_assoc. Qed.

Lemma with_message_nil self : with_message (fun m => m ++ []) self = self.
Proof. destruct self. unfold with_message. cbn. by rewrite app_nil_r. Qed.

Lemma remove_char_app c (a b : str) :
  remove_char c (a ++ b) = remove_char c a ++ remove_char c b.
Proof. unfold remove_char, str in *. apply filter_app. Qed.

Lemma remove_char_twice c (a : str) :
  remove_char c (remove_char c a) = remove_char c a.
Proof.
  unfold remove_char, str in *. induction a as [|x a IH]; [done |].
  rewrite (filter_cons _ x a). case_decide; [| done].
  rewrite filter_cons_True by done. by rewrite IH.
Qed.

Lemma length_slice_to {A} (l : list A) n : (length (slice_to l n) <= length l)%nat.
Proof. unfold slice_to. case_match; rewrite length_firstn; lia. Qed.

(** One fragment whose content does not end in a closing brace. *)
Lemma status_unterminated_step unpacked self :
  ~ ends_with_brace (fragment_content unpacked) ->
  after (_process_status unpacked self)
  = with_message (fun m => m ++ fragment_content unpacked) self
  /\ emitted (_process_status unpacked self) = [].
Proof.
  intros Hnb. destruct unpacked as [|n codes].
  - rewrite status_no_fields. cbn [after emitted fragment_content].
    by rewrite with_message_nil.
  - destruct (last (fragment_content (n :: codes))) as [c|] eqn:Hlast.
    + rewrite (status_pending _ _ _ _ c); [done .. |].
      intros ->. by apply Hnb.
    + apply last_None in Hlast. rewrite status_empty by done.
      cbn [after emitted]. by rewrite Hlast, with_message_nil.
Qed.

(** What a call of the assembler can do, whatever the fields. *)
Lemma status_call_frame unpacked self :
  let s := _process_status unpacked self in
  _subscriptions (after s) = _subscriptions self
  /\ _sample_idxs (after s) = _sample_idxs self
  /\ _chunks (after s) = _chunks self
  /\ Forall is_status_record (emitted s)
  /\ (length (emitted s) <= 1)%nat
  /\ (emitted s = [] \/ (_message (after s) = [] /\ outcome s = Ok tt))
  /\ (length (_message (after s))
      <= length (_message self) + length (tail unpacked))%nat.
Proof.
  cbn zeta. destruct unpacked as [|n codes].
  { rewrite status_no_fields. cbn. repeat split; auto with lia. }
  destruct (last (fragment_content (n :: codes))) as [c|] eqn:Hlast.
  2:{ apply last_None in Hlast. rewrite status_empty by done. cbn.
      repeat split; auto with lia. }
  pose proof (length_slice_to (map chr codes) n) as Hlen.
  rewrite length_map in Hlen.
  destruct (decide (c = "}"%char)) as [-> | Hc].
  - destruct (literal_eval (remove_char newline
                (_message self ++ fragment_content (n :: codes))))
      as [record|e] eqn:Hparse.
    + rewrite (status_complete _ _ _ _ record Hlast Hparse). cbn.
      repeat split; auto with lia.
      repeat constructor. by eexists.
    + rewrite (status_garbled _ _ _ _ e Hlast Hparse). cbn.
      repeat split; auto with lia.
      unfold remove_char, str in *. etrans; [apply length_filter |].
      rewrite length_app. cbn [fragment_content]. lia.
  - rewrite (status_pending _ _ _ _ c Hlast Hc). cbn.
    repeat split; auto with lia.
    rewrite length_app. lia.
Qed.

(** X6. A call of the status assembler, whatever the decoded fields,
    leaves the subscriptions, the sample indices and the chunks alone and
    calls the callback at most once, for the stream "status" with sample
    index -1 and a record; when it does call it, the call returns normally
    and the status text is empty afterwards. *)
Theorem status_call_is_atomic unpacked self :
  let s := _process_status unpacked self in
  _subscriptions (after s) = _subscriptions self
  /\ _sample_idxs (after s) = _sample_idxs self
  /\ _chunks (after s) = _chunks self
  /\ Forall is_status_record (emitted s)
  /\ (length (emitted s) <= 1)%nat
  /\ (emitted s = [] \/ (_message (after s) = [] /\ outcome s = Ok tt)).
Proof.
  pose proof (status_call_frame unpacked self) as H. cbn zeta in *.
  tauto.
Qed.

Lemma run_unterminated_text (frags : list (list Z)) : forall self,
  Forall (fun u => ~ ends_with_brace (fragment_content u)) frags ->
  run _process_status frags self
  = (with_message (fun m => m ++ fragments_text frags) self, []).
Proof.
  unfold fragments_text.
  induction frags as [|u frags IH]; intros self Hall; cbn [run map concat].
  - by rewrite with_message_nil.
  - inversion Hall as [|? ? Hu Hrest]; subst.
    destruct (status_unterminated_step u self Hu) as [-> ->].
    rewrite IH by done. cbn [fst snd app]. by rewrite with_message_app.
Qed.

(** X7. Fragments none of whose contents ends in a closing brace are
    only collected: after any number of them the status text is the text
    it was followed by their contents in order, a fragment with no
    content adding nothing, and the callback has not been called. *)
Theorem status_text_accumulates frags self :
  Forall (fun u => ~ ends_with_brace (fragment_content u)) frags ->
  run _process_status frags self
  = (with_message (fun m => m ++ fragments_text frags) self, []).
Proof. apply run_unterminated_text. Qed.

(** X8. A record cut into any number of fragments: when only the last
    content ends in a closing brace and the collected text, line breaks
    removed, is a literal, running the fragments calls the callback
    exactly once, with that literal's value, and leaves the status text
    empty. *)
Theorem status_record_is_reassembled_from_fragments
    frags final record self :
  Forall (fun u => ~ ends_with_brace (fragment_content u)) frags ->
  ends_with_brace (fragment_content final) ->
  literal_eval
    (remove_char newline
       (_message self ++ fragments_text (frags ++ [final])))
  = Ok record ->
  run _process_status (frags ++ [final]) self
  = (with_message (fun _ => []) self,
     [Emit "status" (IScalar (-1)) (PRecord record)]).
Proof.
  intros Hfrags Hfinal Hparse.
  rewrite run_app, (run_unterminated_text frags self Hfrags).
  cbn [fst snd app run].
  destruct final as [|n codes]; [done |].
  unfold fragments_text in Hparse.
  rewrite map_app, concat_app in Hparse. cbn [map concat] in Hparse.
  rewrite app_nil_r in Hparse.
  rewrite (status_complete _ _ _ _ record Hfinal)
    by (cbn [_message with_message]; by rewrite <- app_assoc).
  done.
Qed.

(** X9. A text that ended in a closing brace and did not parse is kept
    for the next fragment: when the text followed by the content of the
    next fragment is a literal, that fragment completes the record, which
    is handed to the callback, and the status text is emptied. *)
Theorem unparsed_status_text_is_completed_later u1 u2 e record self :
  ends_with_brace (fragment_content u1) ->
  literal_eval (remove_char newline (_message self ++ fragment_content u1))
  = Raise e ->
  ends_with_brace (fragment_content u2) ->
  literal_eval
    (remove_char newline
       (_message self ++ fragment_content u1 ++ fragment_content u2))
  = Ok record ->
  run _process_status [u1; u2] self
  = (with_message (fun _ => []) self,
     [Emit "status" (IScalar (-1)) (PRecord record)]).
Proof.
  intros H1 Hfail H2 Hparse.
  destruct u1 as [|n1 codes1]; [done |]. destruct u2 as [|n2 codes2]; [done |].
  cbn [run fst snd].
  rewrite (status_garbled _ _ _ _ e H1 Hfail). cbn [after emitted app].
  rewrite (status_complete _ _ _ _ record H2).
  - done.
  - cbn [_message with_message].
    rewrite remove_char_app, remove_char_twice, <- remove_char_app.
    by rewrite <- app_assoc.
Qed.

End Reassembly.

(* ===================================================================== *)
(** ** The entry point on every notification                              *)
(* ===================================================================== *)

Section EntryPoint.

Variable chunk_size : nat.
Variable literal_eval : str -> res obj.

Local Abbreviation process_packet :=
  (Muse2016.process_packet chunk_size literal_eval).
Local Abbreviation _process_status :=
  (Muse2016._process_status literal_eval).
Local Abbreviation deliver := (notify chunk_size literal_eval).

Lemma handle_of_status handle :
  dict_get HANDLE_NAMES (KInt handle) = Ok "status"%string -> handle = 14.
Proof.
  unfold HANDLE_NAMES. cbn [dict_get].
  destruct (decide (KInt 14 = KInt handle)) as [[= <-] | _]; [done |].
  repeat (case_decide; [discriminate |]). discriminate.
Qed.

Lemma dict_get_of_key {V} (d : dict V) k :
  k ∈ dict_keys d -> exists v, dict_get d k = Ok v.
Proof.
  unfold dict_keys. induction d as [|[k' v'] d IH]; cbn [map fst dict_get].
  - intros Hin. by apply elem_of_nil in Hin.
  - intros Hin. destruct (decide (k' = k)) as [-> | Hne]; [by eexists |].
    apply elem_of_cons in Hin as [-> | Hin]; [done | by apply IH].
Qed.

Lemma dict_get_missing {V} (d : dict V) k :
  k ∉ dict_keys d -> dict_get d k = Raise (KeyError k).
Proof.
  unfold dict_keys. induction d as [|[k' v'] d IH]; cbn [map fst dict_get];
    [done |].
  intros Hout. rewrite decide_False by (intros ->; apply Hout; by left).
  apply IH. intros Hin. apply Hout. by right.
Qed.

Lemma unpack_length packet fmt ts unpacked :
  tokenparser fmt = Ok ts -> _unpack packet fmt = Ok unpacked ->
  length unpacked = length ts.
Proof.
  intros Hts Hun. unfold _unpack, unpack in Hun. rewrite Hts in Hun.
  cbn [res_bind] in Hun. symmetry.
  by eapply Forall2_length, readlist_range.
Qed.

Lemma process_packet_cases handle packet self :
  call_case chunk_size literal_eval handle packet self
    (process_packet handle packet self).
Proof.
  destruct (dict_get HANDLE_NAMES (KInt handle)) as [name|e] eqn:Hname.
  2:{ assert (KInt handle ∉ dict_keys HANDLE_NAMES) as Hkey.
      { intros [v Hv]%dict_get_of_key. congruence. }
      rewrite (process_packet_unknown _ _ _ _ _ _
                 (dict_get_missing _ _ Hkey)).
      by constructor. }
  destruct (handle_format chunk_size _ _ Hname) as (fmt & Hfmt & Hts).
  destruct (decide (packet_bits packet
                    < total_width (stream_tokens chunk_size name))%nat)
    as [Hshort | Hlong].
  { pose proof (unpack_short _ _ _ Hts Hshort) as Hun.
    rewrite (process_packet_undecoded _ _ _ _ _ _ _ _ Hname Hfmt Hun).
    by econstructor 2. }
  destruct (unpack_enough packet fmt _ Hts) as (unpacked & Hun & Hlen);
    [lia |].
  destruct (decide (name ∈ _subscriptions self)) as [Hin | Hout].
  2:{ rewrite (process_packet_unsubscribed _ _ _ _ _ _ _ _ Hname Hfmt Hun Hout).
      by econstructor 3. }
  destruct (decide (name = "status")) as [-> | Hns].
  2:{ rewrite (process_packet_sensor _ _ _ _ _ _ _ _ Hname Hfmt Hun Hin Hns).
      by econstructor 4. }
  pose proof (handle_of_status _ Hname) as ->.
  destruct unpacked as [|u0 rest]; [done |].
  rewrite (process_packet_status _ _ _ _ _ _ Hfmt Hun Hin). cbv zeta.
  assert (length rest = 19%nat) as Hrest.
  { change (length (stream_tokens chunk_size "status")) with 20%nat in Hlen.
    cbn [length] in Hlen. lia. }
  pose proof (status chunk_size literal_eval 14 packet self fmt u0 rest
                eq_refl Hfmt Hun Hrest Hin) as Hcase.
  cbv zeta in Hcase.
  destruct (outcome (_process_status (u0 :: rest) self)) as [[]|e];
    [| exact Hcase].
  rewrite emit_single_unbound. cbn [after emitted outcome].
  by rewrite app_nil_r.
Qed.

Ltac by_call_case handle packet self :=
  generalize (process_packet_cases handle packet self);
  generalize (Muse2016.process_packet chunk_size literal_eval
                handle packet self);
  let s := fresh "s" in let Hc := fresh "Hc" in
  intros s Hc; destruct Hc.

(** X10. Whatever the handle, the packet and the subscriptions, a call
    of [process_packet] leaves the subscriptions and the chunks as they
    were, changes no sample index but that of "status", calls the callback
    at most once and only with a status record (never with a chunk), and
    lengthens the status text by at most 19 characters. *)
Theorem process_packet_emits_status_records_only handle packet self :
  let s := process_packet handle packet self in
  _subscriptions (after s) = _subscriptions self
  /\ _chunks (after s) = _chunks self
  /\ delete "status"%string (_sample_idxs (after s))
     = delete "status"%string (_sample_idxs self)
  /\ Forall is_status_record (emitted s)
  /\ (length (emitted s) <= 1)%nat
  /\ (length (_message (after s)) <= length (_message self) + 19)%nat.
Proof.
  cbn zeta. by_call_case handle packet self; cbn [after emitted];
    try (repeat split; auto with lia; fail).
  pose proof (status_call_frame literal_eval (u0 :: rest) self)
    as (Hsub & Hidx & Hch & Hrec & Hone & _ & Hlen).
  cbn [tail] in Hlen. cbv zeta.
  destruct (outcome (_process_status (u0 :: rest) self));
    cbn [_subscriptions _chunks _sample_idxs _message with_sample_idxs];
    rewrite ?delete_insert_eq, ?Hidx; repeat split; auto with lia.
Qed.

(** X11. A call of [process_packet] returns normally exactly when the
    handle is known, the packet decodes and the stream is not subscribed:
    every notification of a subscribed stream ends in an exception. *)
Theorem process_packet_returns_iff_unsubscribed handle packet self :
  outcome (process_packet handle packet self) = Ok tt
  <-> exists name fmt unpacked,
        dict_get HANDLE_NAMES (KInt handle) = Ok name
        /\ dict_get (PACKET_FORMATS chunk_size) (KStr name) = Ok fmt
        /\ _unpack packet fmt = Ok unpacked
        /\ name ∉ _subscriptions self.
Proof.
  split.
  - by_call_case handle packet self; cbv zeta; cbn [outcome];
      try discriminate.
    intros _. by exists name, fmt, unpacked.
  - intros (name & fmt & unpacked & Hname & Hfmt & Hun & Hout).
    by rewrite (process_packet_unsubscribed _ _ _ _ _ _ _ _
                  Hname Hfmt Hun Hout).
Qed.

(** A notification that cannot change anything, whatever the handler: its
    handle is unknown, or its stream is not the status stream, or its
    packet is too short for its stream. *)
Lemma rejected_is_silent n self :
  KInt n.1 ∉ dict_keys HANDLE_NAMES
  \/ (exists name, dict_get HANDLE_NAMES (KInt n.1) = Ok name
                   /\ (name <> "status"
                       \/ (packet_bits n.2
                           < total_width (stream_tokens chunk_size name))%nat))
  ->
  after (deliver n self) = self /\ emitted (deliver n self) = [].
Proof.
  unfold notify.
  intros [Hkey | (name & Hname & [Hns | Hshort])].
  - by rewrite (process_packet_unknown _ _ _ _ _ _
                  (dict_get_missing _ _ Hkey)).
  - by apply (sensor_notification_is_silent _ _ _ _ _ name).
  - destruct (handle_format chunk_size _ _ Hname) as (fmt & Hfmt & Hts).
    by rewrite (process_packet_undecoded _ _ _ _ _ _ _ _ Hname Hfmt
                  (unpack_short _ _ _ Hts Hshort)).
Qed.

(** X12. In a sequence of notifications, one that has an unknown handle,
    or a packet too short for its stream, or belongs to a stream other
    than the status stream, can be taken out: the handler at the end and
    the calls of the callback are the same without it. *)
Theorem rejected_notifications_leave_no_trace ns1 n ns2 self :
  KInt n.1 ∉ dict_keys HANDLE_NAMES
  \/ (exists name, dict_get HANDLE_NAMES (KInt n.1) = Ok name
                   /\ (name <> "status"
                       \/ (packet_bits n.2
                           < total_width (stream_tokens chunk_size name))%nat))
  ->
  run deliver (ns1 ++ n :: ns2) self = run deliver (ns1 ++ ns2) self.
Proof.
  intros Hn. rewrite !run_app. cbn [run].
  destruct (rejected_is_silent n (fst (run deliver ns1 self)) Hn)
    as [Hafter Hemitted].
  by rewrite Hafter, Hemitted.
Qed.

(** The assembler looks at the status text only. *)
Lemma status_call_by_message unpacked s1 s2 :
  _message s1 = _message s2 ->
  emitted (_process_status unpacked s1) = emitted (_process_status unpacked s2)
  /\ outcome (_process_status unpacked s1)
     = outcome (_process_status unpacked s2)
  /\ _message (after (_process_status unpacked s1))
     = _message (after (_process_status unpacked s2)).
Proof.
  intros Hmsg. destruct unpacked as [|n codes].
  { by rewrite !status_no_fields. }
  destruct (last (fragment_content (n :: codes))) as [c|] eqn:Hlast.
  2:{ apply last_None in Hlast. by rewrite !status_empty. }
  destruct (decide (c = "}"%char)) as [-> | Hc].
  - destruct (literal_eval (remove_char "010"%char
                (_message s2 ++ fragment_content (n :: codes))))
      as [record|e] eqn:Hparse.
    + rewrite (status_complete _ _ _ s2 record Hlast Hparse).
      rewrite <- Hmsg in Hparse.
      by rewrite (status_complete _ _ _ s1 record Hlast Hparse).
    + rewrite (status_garbled _ _ _ s2 e Hlast Hparse).
      rewrite <- Hmsg in Hparse.
      rewrite (status_garbled _ _ _ s1 e Hlast Hparse).
      cbn. by rewrite Hmsg.
  - rewrite !(status_pending _ _ _ _ c Hlast Hc). cbn. by rewrite Hmsg.
Qed.

Lemma status_notification_step packet s1 s2 :
  "status" ∈ _subscriptions s1 ->
  (20 <= length packet)%nat ->
  _message s1 = _message s2 ->
  let fields := map byte_value (firstn 20 packet) in
  emitted (deliver (14, packet) s1) = emitted (_process_status fields s2)
  /\ _message (after (deliver (14, packet) s1))
     = _message (after (_process_status fields s2))
  /\ "status" ∈ _subscriptions (after (deliver (14, packet) s1)).
Proof.
  intros Hsub Hlen Hmsg. cbn zeta. unfold notify. cbn [fst snd].
  destruct (handle_format chunk_size 14 "status" eq_refl)
    as (fmt & Hfmt & _).
  pose proof (status_unpack_bytes _ _ _ Hfmt Hlen) as Hun.
  assert (exists u0 rest, map byte_value (firstn 20 packet) = u0 :: rest)
    as (u0 & rest & Hfields).
  { destruct packet; [cbn in Hlen; lia |]. cbn. eauto. }
  rewrite Hfields in *.
  rewrite (process_packet_status _ _ _ _ _ _ Hfmt Hun Hsub). cbv zeta.
  destruct (status_call_by_message (u0 :: rest) s1 s2 Hmsg)
    as (Hem & Hout & Hafter).
  pose proof (status_call_frame literal_eval (u0 :: rest) s1) as (Hs & _).
  cbv zeta in Hs. rewrite <- Hem, <- Hafter.
  destruct (outcome (_process_status (u0 :: rest) s1))
    as [[]|e]; cbn [after emitted]; [| by rewrite Hs].
  rewrite emit_single_unbound.
  cbn [after emitted _message _subscriptions with_sample_idxs].
  by rewrite app_nil_r, Hs.
Qed.

Lemma status_run_simulation packets : forall s1 s2,
  "status" ∈ _subscriptions s1 ->
  Forall (fun p => (20 <= length p)%nat) packets ->
  _message s1 = _message s2 ->
  snd (run deliver (map (pair 14) packets) s1)
  = snd (run _process_status
           (map (fun p => map byte_value (firstn 20 p)) packets) s2)
  /\ _message (fst (run deliver (map (pair 14) packets) s1))
     = _message (fst (run _process_status
                        (map (fun p => map byte_value (firstn 20 p)) packets)
                        s2)).
Proof.
  induction packets as [|p packets IH]; intros s1 s2 Hsub Hall Hmsg;
    [done |].
  inversion Hall as [|? ? Hp Hrest]; subst. cbn [map run fst snd].
  destruct (status_notification_step p s1 s2 Hsub Hp Hmsg)
    as (Hem & Hafter & Hsub').
  cbv zeta in Hem, Hafter.
  destruct (IH _ _ Hsub' Hrest Hafter) as [IHem IHmsg].
  by rewrite Hem, IHem, IHmsg.
Qed.

(** X13. On the subscribed status stream the entry point is the
    assembler run on the bytes: for packets of at least twenty bytes,
    [process_packet] on handle 14 makes the same calls of the callback as
    [_process_status] on the numbers of the first twenty bytes of each
    packet, and leaves the same status text, although each of its calls
    ends in an exception. *)
Theorem status_notifications_run_the_assembler packets self :
  "status" ∈ _subscriptions self ->
  Forall (fun p => (20 <= length p)%nat) packets ->
  snd (run deliver (map (pair 14) packets) self)
  = snd (run _process_status
           (map (fun p => map byte_value (firstn 20 p)) packets) self)
  /\ _message (fst (run deliver (map (pair 14) packets) self))
     = _message (fst (run _process_status
                        (map (fun p => map byte_value (firstn 20 p)) packets)
                        self)).
Proof. intros Hsub Hall. by apply status_run_simulation. Qed.

End EntryPoint.

(* ===================================================================== *)
(** ** The EEG tables and the branch of the split stream                  *)
(* ===================================================================== *)

Section SplitBranch.

Lemma eeg_handle_index h idx :
  dict_get EEG_HANDLE_CH_IDXS (KInt h) = Ok idx
  <-> (h = 32 /\ idx = 0%nat) \/ (h = 35 /\ idx = 1%nat)
      \/ (h = 38 /\ idx = 2%nat) \/ (h = 41 /\ idx = 3%nat)
      \/ (h = 44 /\ idx = 4%nat).
Proof.
  unfold EEG_HANDLE_CH_IDXS. cbn [dict_get].
  repeat (destruct (decide (KInt _ = KInt h)) as [[= <-] | ?];
          [split; [intros [= <-]; tauto | intros; f_equal; lia] |]).
  split; [done |]. intros Hh. exfalso.
  destruct Hh as [[-> _] | [[-> _] | [[-> _] | [[-> _] | [-> _]]]]];
    congruence.
Qed.

Lemma eeg_handle_name h :
  dict_get HANDLE_NAMES (KInt h) = Ok "eeg"%string
  <-> h = 44 \/ h = 41 \/ h = 38 \/ h = 32 \/ h = 35.
Proof.
  unfold HANDLE_NAMES. cbn [dict_get].
  repeat (destruct (decide (KInt _ = KInt h)) as [[= <-] | ?];
          [split; [try discriminate; intros _; tauto
                  | intros; (done || (exfalso; lia))] |]).
  split; [done |]. intros Hh. exfalso.
  destruct Hh as [-> | [-> | [-> | [-> | ->]]]]; congruence.
Qed.

Lemma eeg_handle_order h :
  h ∈ EEG_HANDLE_RECEIVE_ORDER
  <-> h = 44 \/ h = 41 \/ h = 38 \/ h = 32 \/ h = 35.
Proof.
  unfold EEG_HANDLE_RECEIVE_ORDER. rewrite !elem_of_cons, elem_of_nil. tauto.
Qed.

(** X14. The three EEG tables agree: a handle is mapped to the stream
    "eeg" exactly when it is in the order of receipt, and exactly then it
    has a channel index; the index is below 5 and two handles never share
    an index; and every index below 5 is that of a handle in the order of
    receipt.  So the lookup of the channel index cannot fail on an EEG
    notification, and one cycle fills the five rows of the chunk. *)
Theorem eeg_tables_agree handle :
  (dict_get HANDLE_NAMES (KInt handle) = Ok "eeg"%string
   <-> handle ∈ EEG_HANDLE_RECEIVE_ORDER)
  /\ (handle ∈ EEG_HANDLE_RECEIVE_ORDER
      <-> exists idx, dict_get EEG_HANDLE_CH_IDXS (KInt handle) = Ok idx)
  /\ (forall idx other,
        dict_get EEG_HANDLE_CH_IDXS (KInt handle) = Ok idx ->
        (idx < 5)%nat
        /\ (dict_get EEG_HANDLE_CH_IDXS (KInt other) = Ok idx ->
            other = handle))
  /\ (forall idx, (idx < 5)%nat ->
        exists h, h ∈ EEG_HANDLE_RECEIVE_ORDER
                  /\ dict_get EEG_HANDLE_CH_IDXS (KInt h) = Ok idx).
Proof.
  split; [| split; [| split]].
  - rewrite eeg_handle_name, eeg_handle_order. tauto.
  - rewrite eeg_handle_order. split.
    + intros [-> | [-> | [-> | [-> | ->]]]]; by eexists.
    + intros [idx Hi%eeg_handle_index]. lia.
  - intros idx other Hi%eeg_handle_index. split; [lia |].
    intros Ho%eeg_handle_index. lia.
  - intros idx Hidx.
    destruct idx as [|[|[|[|[|idx]]]]];
      [exists 32 | exists 35 | exists 38 | exists 41 | exists 44 | lia];
      (split; [rewrite eeg_handle_order; lia | reflexivity]).
Qed.

(** X15. The branch of the split stream on one notification, when the
    handler has five sample indices and a chunk for "eeg" and the payload
    has the length of a row: it returns normally, having written the first
    field into the sample index of the handle and the converted payload
    into the row of the handle, every other index and row being what it
    was, and it calls the callback exactly when the handle is 35, the last
    in the order of receipt, with the indices and the chunk as they then
    stand. *)
Theorem assemble_writes_one_slot handle idx u0 rest d self sidx chunk old :
  dict_get EEG_HANDLE_CH_IDXS (KInt handle) = Ok idx ->
  _sample_idxs self !! "eeg" = Some (IArray sidx) ->
  (idx < length sidx)%nat ->
  _chunks self !! "eeg" = Some chunk ->
  chunk !! idx = Some old ->
  length d = length old ->
  let s := assemble (handle, u0 :: rest, d) self in
  let sidx' := <[idx:=u0]> sidx in
  let chunk' := <[idx:=map convert_eeg_element d]> chunk in
  outcome s = Ok tt
  /\ _sample_idxs (after s) = <["eeg":=IArray sidx']> (_sample_idxs self)
  /\ _chunks (after s) = <["eeg":=chunk']> (_chunks self)
  /\ _message (after s) = _message self
  /\ _subscriptions (after s) = _subscriptions self
  /\ emitted s = (if decide (handle = 35)
                  then [Emit "eeg" (IArray sidx') (PChunk chunk')] else [])
  /\ (forall j, j <> idx -> sidx' !! j = sidx !! j /\ chunk' !! j = chunk !! j).
Proof.
  intros Hidx Hs Hlt Hc Hold Hlen. cbv zeta.
  rewrite (assemble_step _ _ _ _ _ _ _ _ _ Hidx Hs Hlt Hc Hold Hlen).
  cbn. repeat split; try done.
  - by apply list_lookup_insert_ne.
  - by apply list_lookup_insert_ne.
Qed.

Ltac cycle_step h i :=
  erewrite (assemble_step h i);
  [ cbn [after emitted]
  | reflexivity
  | first [ eassumption
          | cbn [_sample_idxs with_chunks with_sample_idxs];
            apply lookup_insert_eq ]
  | cbn; lia
  | first [ eassumption
          | cbn [_chunks with_chunks with_sample_idxs];
            apply lookup_insert_eq ]
  | reflexivity
  | cbn; congruence ].

(** X16. One notification per EEG handle in the order of receipt, each
    payload of the length of its row: the callback is called once, on the
    last notification, with the five reported sample indices and the five
    converted payloads, each in the place of its channel, and this is what
    the handler holds for "eeg" afterwards. *)
Theorem assemble_cycle_emits_once self s0 s1 s2 s3 s4 r0 r1 r2 r3 r4
    (i44 i41 i38 i32 i35 : Z) (x44 x41 x38 x32 x35 : list Z)
    (d44 d41 d38 d32 d35 : list F32.t) :
  _sample_idxs self !! "eeg" = Some (IArray [s0; s1; s2; s3; s4]) ->
  _chunks self !! "eeg" = Some [r0; r1; r2; r3; r4] ->
  length d32 = length r0 -> length d35 = length r1 ->
  length d38 = length r2 -> length d41 = length r3 ->
  length d44 = length r4 ->
  let idxs := IArray [i32; i35; i38; i41; i44] in
  let chunk := map (map convert_eeg_element) [d32; d35; d38; d41; d44] in
  let r := run assemble
             [ (44, i44 :: x44, d44); (41, i41 :: x41, d41);
               (38, i38 :: x38, d38); (32, i32 :: x32, d32);
               (35, i35 :: x35, d35) ] self in
  snd r = [Emit "eeg" idxs (PChunk chunk)]
  /\ _sample_idxs (fst r) !! "eeg" = Some idxs
  /\ _chunks (fst r) !! "eeg" = Some chunk.
Proof.
  intros Hs Hc H0 H1 H2 H3 H4. cbv zeta. cbn [run fst snd].
  cycle_step 44 4%nat. cycle_step 41 3%nat. cycle_step 38 2%nat.
  cycle_step 32 0%nat. cycle_step 35 1%nat.
  cbn [_sample_idxs _chunks with_chunks with_sample_idxs].
  rewrite !lookup_insert_eq. done.
Qed.

(** X17. An exception undoes nothing.  When the payload has neither the
    length of the row nor length 1, the assignment to the row raises
    [ValueError]; the sample index of the handle was written on the line
    before and stays written, while the row and the rest of the handler
    are what they were, and the callback is not called. *)
Theorem assemble_mismatch_keeps_index handle idx u0 rest d self sidx chunk old :
  dict_get EEG_HANDLE_CH_IDXS (KInt handle) = Ok idx ->
  _sample_idxs self !! "eeg" = Some (IArray sidx) ->
  (idx < length sidx)%nat ->
  _chunks self !! "eeg" = Some chunk ->
  chunk !! idx = Some old ->
  length d <> length old ->
  length d <> 1%nat ->
  assemble (handle, u0 :: rest, d) self
  = Step (with_sample_idxs <["eeg":=IArray (<[idx:=u0]> sidx)]> self) []
         (Raise ValueError).
Proof.
  intros Hidx Hs Hlt Hc Hold Hlen Hone.
  unfold assemble, assemble_split. cbn [fst snd].
  step_with Hidx.
  change (getitem (u0 :: rest) 0) with (Ok u0). do 2 step.
  unfold attr_get at 1. step_with Hs.
  unfold setitem. rewrite decide_True by done. cbn [res_bind]. do 2 step.
  change (dict_get CONVERT_FUNCS (KStr "eeg")) with (Ok convert_eeg). step.
  cbn [read_local]. step.
  change (convert_eeg d)
    with (Ok (Some (Vec (map convert_eeg_element d)))). do 2 step.
  cbn [_chunks with_sample_idxs]. unfold attr_get at 1. step_with Hc.
  assert (set_row chunk idx (Some (Vec (map convert_eeg_element d)))
          = Raise ValueError) as ->.
  { unfold set_row. rewrite Hold. cbn [broadcast]. unfold broadcast_row.
    rewrite decide_False by (by rewrite length_map).
    destruct d as [|x [|y d]]; done. }
  by step.
Qed.

End SplitBranch.

(* ===================================================================== *)
(** ** The conversions of the other streams                               *)
(* ===================================================================== *)

Section Conversions.

Variable chunk_size : nat.

Lemma length_nine {A} (l : list A) :
  length l = 9%nat ->
  exists a0 a1 a2 a3 a4 a5 a6 a7 a8, l = [a0; a1; a2; a3; a4; a5; a6; a7; a8].
Proof.
  intros Hl. do 9 (destruct l as [|? l]; [discriminate |]).
  destruct l; [| discriminate]. by do 9 eexists.
Qed.

(** X18. The conversions of the motion streams take exactly nine values:
    with any other number the reshaping raises [ValueError]; nine values
    come back scaled as three rows of three, in the order they were read.
    The telemetry conversion reads the first four values and nothing after
    them, and raises [IndexError] when there are fewer: its result is the
    first value divided by 512 and 2.2 times the second, both in double
    precision, followed by the third and the fourth as they are. *)
Theorem conversion_shapes_and_errors (data : list F32.t)
    a0 a1 a2 a3 a4 a5 a6 a7 a8 more :
  let acc := F32.mul (F32.literal 610352 10) in
  let gyr := F32.mul (F32.literal 74768 7) in
  convert_accelerometer [a0; a1; a2; a3; a4; a5; a6; a7; a8]
  = Ok (Some (Mat [ [acc a0; acc a1; acc a2];
                    [acc a3; acc a4; acc a5];
                    [acc a6; acc a7; acc a8] ]))
  /\ convert_gyroscope [a0; a1; a2; a3; a4; a5; a6; a7; a8]
     = Ok (Some (Mat [ [gyr a0; gyr a1; gyr a2];
                       [gyr a3; gyr a4; gyr a5];
                       [gyr a6; gyr a7; gyr a8] ]))
  /\ (length data = 9%nat
      \/ (convert_accelerometer data = Raise ValueError
          /\ convert_gyroscope data = Raise ValueError))
  /\ convert_telemetry (a0 :: a1 :: a2 :: a3 :: more)
     = Ok (Some (Vec [F64.div a0 (F64.of_Z 512);
                      F64.mul (F64.literal 22 1) a1; a2; a3]))
  /\ ((4 <= length data)%nat \/ convert_telemetry data = Raise IndexError).
Proof.
  cbv zeta. split; [reflexivity |]. split; [reflexivity |].
  split; [| split; [reflexivity |]].
  - destruct (decide (length data = 9%nat)) as [Hl | Hl]; [by left | right].
    unfold convert_accelerometer, convert_gyroscope, reshape.
    by rewrite decide_False.
  - destruct (decide (4 <= length data)%nat) as [Hl | Hl]; [by left | right].
    do 4 (destruct data as [|? data]; [reflexivity |]). cbn in Hl. lia.
Qed.

(** The second telemetry value 3: the product 2.2 * 3 in double precision
    is stored in a [float32] array as 6.5999999 (13841203 * 2^-21), where
    the product in single precision would be 6.6000004; the first value
    1000 divided by 512 is 1.953125 in either precision. *)
Lemma telemetry_scalars_are_double :
  convert_telemetry (map F32.of_Z [1000; 3; 0; 25])
  = Ok (Some (Vec [F64.div (F32.of_Z 1000) (F64.of_Z 512);
                   F64.mul (F64.literal 22 1) (F32.of_Z 3);
                   F32.of_Z 0; F32.of_Z 25]))
  /\ F32.of_f64 (F64.mul (F64.literal 22 1) (F32.of_Z 3))
     = S754_finite false 13841203 (-21)
  /\ F32.mul (F32.literal 22 1) (F32.of_Z 3)
     = S754_finite false 13841204 (-21)
  /\ (exists q, F32.to_Q (F64.div (F32.of_Z 1000) (F64.of_Z 512)) = Some q
                /\ (q == 125 # 64)%Q)
  /\ (exists q, F32.to_Q (F32.div (F32.of_Z 1000) (F32.of_Z 512)) = Some q
                /\ (q == 125 # 64)%Q).
Proof.
  split; [reflexivity |]. split; [by vm_compute |]. split; [by vm_compute |].
  split; (eexists; split; [by vm_compute | reflexivity]).
Qed.

Lemma sensor_conversion_fits name (data : list F32.t) :
  name ∈ STREAMS -> name <> "status" ->
  length data = (length (stream_tokens chunk_size name) - 1)%nat ->
  exists convert value,
    dict_get CONVERT_FUNCS (KStr name) = Ok convert
    /\ convert data = Ok (Some value)
    /\ shape value = stream_shape chunk_size name.
Proof.
  unfold STREAMS. intros Hname Hns Hdata.
  repeat (apply elem_of_cons in Hname as [-> | Hname]);
    [.. | by apply elem_of_nil in Hname]; try done.
  - exists convert_eeg. eexists. repeat split; [done .. |].
    cbn [shape]. rewrite length_map, Hdata.
    unfold stream_tokens, stream_shape. rewrite !decide_True by done.
    cbn [length]. rewrite repeat_length. f_equal. lia.
  - change (length (stream_tokens chunk_size "accelerometer"))
      with 10%nat in Hdata.
    destruct (length_nine _ Hdata) as (? & ? & ? & ? & ? & ? & ? & ? & ? & ->).
    exists convert_accelerometer. eexists. by repeat split.
  - change (length (stream_tokens chunk_size "gyroscope"))
      with 10%nat in Hdata.
    destruct (length_nine _ Hdata) as (? & ? & ? & ? & ? & ? & ? & ? & ? & ->).
    exists convert_gyroscope. eexists. by repeat split.
  - change (length (stream_tokens chunk_size "telemetry"))
      with 5%nat in Hdata.
    do 4 (destruct data as [|? data]; [discriminate |]).
    exists convert_telemetry. eexists. by repeat split.
Qed.

(** X19. The decoder and the conversions fit: for each of the four
    sensor streams, the payload fields of a packet that has the bits of its
    format, made into a [float32] array, are accepted by the conversion
    function of the stream, whose result has the shape of the stream: one
    row of samples for an EEG handle, three by three for the accelerometer
    and the gyroscope, four numbers for the telemetry. *)
Theorem decoded_payload_converts handle name packet :
  dict_get HANDLE_NAMES (KInt handle) = Ok name ->
  name <> "status" ->
  (total_width (stream_tokens chunk_size name) <= packet_bits packet)%nat ->
  exists fmt unpacked data convert value,
    dict_get (PACKET_FORMATS chunk_size) (KStr name) = Ok fmt
    /\ _unpack packet fmt = Ok unpacked
    /\ np_array (slice_from1 unpacked) (OStr "float32") = Ok data
    /\ dict_get CONVERT_FUNCS (KStr name) = Ok convert
    /\ convert data = Ok (Some value)
    /\ shape value = stream_shape chunk_size name.
Proof.
  intros Hname Hns Hlen.
  destruct (handle_format chunk_size _ _ Hname) as (fmt & Hfmt & Hts).
  destruct (unpack_enough _ _ _ Hts Hlen) as (unpacked & Hun & Hfields).
  destruct (sensor_conversion_fits name
              (map F32.of_Z (slice_from1 unpacked)))
    as (convert & value & Hconv & Hval & Hshape).
  - by eapply handle_stream.
  - done.
  - rewrite length_map. unfold slice_from1.
    destruct unpacked; cbn [tail length] in *; lia.
  - by exists fmt, unpacked, (map F32.of_Z (slice_from1 unpacked)),
              convert, value.
Qed.

End Conversions.

(* ===================================================================== *)
(** ** Further concrete notifications                                     *)
(* ===================================================================== *)

(** An accelerometer packet of twenty bytes 255: every field in range. *)
Lemma unpack_fields_in_range_at_accelerometer :
  exists fmt unpacked,
    dict_get (PACKET_FORMATS 12) (KStr "accelerometer") = Ok fmt
    /\ _unpack (repeat xff 20) fmt = Ok unpacked
    /\ length unpacked = length (stream_tokens 12 "accelerometer")
    /\ Forall2 in_range (stream_tokens 12 "accelerometer") unpacked.
Proof.
  apply (unpack_fields_in_range 12 23 "accelerometer" (repeat xff 20)).
  - reflexivity.
  - vm_compute. lia.
Defined.

(** An EEG packet of twenty bytes followed by two more. *)
Lemma unpack_ignores_surplus_at_eeg :
  exists fmt,
    dict_get (PACKET_FORMATS 12) (KStr "eeg") = Ok fmt
    /\ _unpack (repeat x08 20 ++ [x01; x02]) fmt
       = _unpack (repeat x08 20) fmt.
Proof.
  apply (unpack_ignores_surplus 12 32 "eeg" (repeat x08 20) [x01; x02]).
  - reflexivity.
  - vm_compute. lia.
Defined.

(** A telemetry packet of ten bytes. *)
Lemma unpack_is_big_endian_arithmetic_at_telemetry :
  let packet := [x00; x01; xc8; x00; x0f; xa0; x00; x02; x00; x19] in
  exists fmt,
    dict_get (PACKET_FORMATS 12) (KStr "telemetry") = Ok fmt
    /\ _unpack packet fmt
       = Ok (peel (stream_tokens 12 "telemetry") (big_endian packet)
                  (packet_bits packet)).
Proof.
  apply (unpack_is_big_endian_arithmetic 12 26 "telemetry"
           [x00; x01; xc8; x00; x0f; xa0; x00; x02; x00; x19]).
  - reflexivity.
  - vm_compute. lia.
Defined.

(** The status packet that carries the text of an empty record. *)
Lemma status_fields_are_bytes_at_record :
  exists fmt,
    dict_get (PACKET_FORMATS 12) (KStr "status") = Ok fmt
    /\ _unpack (fragment_packet (text "{}")) fmt
       = Ok (map byte_value (firstn 20 (fragment_packet (text "{}")))).
Proof.
  apply (status_fields_are_bytes 12 (fragment_packet (text "{}"))).
  vm_compute. lia.
Defined.

(** The telemetry format, ten bytes. *)
Lemma packet_formats_are_well_formed_at_telemetry :
  exists fmt,
    dict_get (PACKET_FORMATS 12) (KStr "telemetry") = Ok fmt
    /\ tokenparser fmt = Ok (stream_tokens 12 "telemetry")
    /\ total_width (stream_tokens 12 "telemetry")
       = (if decide ("telemetry"%string = "eeg"%string) then 16 + 12 * 12
          else if decide ("telemetry"%string = "telemetry"%string)
               then 80 else 160)%nat.
Proof.
  apply (packet_formats_are_well_formed 12 "telemetry").
  by_computation.
Defined.

(** Two fragments without a closing brace. *)
Lemma status_text_accumulates_at_two_fragments :
  let frags := [fragment_fields (text "{'a': ");
                fragment_fields (text "1, ")] in
  let self := fresh_handler ["status"%string] in
  run (_process_status Literal.literal_eval) frags self
  = (with_message (fun m => m ++ fragments_text frags) self, []).
Proof.
  apply (status_text_accumulates Literal.literal_eval
           [fragment_fields (text "{'a': "); fragment_fields (text "1, ")]
           (fresh_handler ["status"%string])).
  repeat constructor; vm_compute; discriminate.
Defined.

(** The text of [{"a": 1}] in three fragments, the second of which
    begins with a line break. *)
Lemma status_record_is_reassembled_from_three_fragments :
  let frags :=
    [fragment_fields (firstn 3 record_a1_text);
     fragment_fields ("010"%char :: firstn 3 (skipn 3 record_a1_text))] in
  let final := fragment_fields (skipn 6 record_a1_text) in
  let self := fresh_handler ["status"%string] in
  run (_process_status Literal.literal_eval) (frags ++ [final]) self
  = (with_message (fun _ => []) self,
     [Emit "status" (IScalar (-1)) (PRecord record_a1)]).
Proof.
  apply (status_record_is_reassembled_from_fragments Literal.literal_eval
           [fragment_fields (firstn 3 record_a1_text);
            fragment_fields ("010"%char :: firstn 3 (skipn 3 record_a1_text))]
           (fragment_fields (skipn 6 record_a1_text)) record_a1
           (fresh_handler ["status"%string])).
  - repeat constructor; vm_compute; discriminate.
  - vm_compute. reflexivity.
  - vm_compute. reflexivity.
Defined.

(** A record whose value is the text of a closing brace, cut after that
    brace: the first fragment ends in a brace inside an open string. *)
Lemma unparsed_status_text_is_completed_later_at_brace_value :
  let u1 := fragment_fields (text "{'a': '}") in
  let u2 := fragment_fields (text "'}") in
  let self := fresh_handler ["status"%string] in
  run (_process_status Literal.literal_eval) [u1; u2] self
  = (with_message (fun _ => []) self,
     [Emit "status" (IScalar (-1))
           (PRecord (ODict [(KStr "a", OStr "}")]))]).
Proof.
  apply (unparsed_status_text_is_completed_later Literal.literal_eval
           (fragment_fields (text "{'a': '}")) (fragment_fields (text "'}"))
           SyntaxError (ODict [(KStr "a", OStr "}")])
           (fresh_handler ["status"%string])).
  - vm_compute. reflexivity.
  - vm_compute. reflexivity.
  - vm_compute. reflexivity.
  - vm_compute. reflexivity.
Defined.

(** An accelerometer notification between the two halves of a status
    record, the handler subscribed to both streams. *)
Lemma rejected_notifications_leave_no_trace_at_accelerometer :
  let self := fresh_handler ["status"%string; "accelerometer"%string] in
  let n1 := (14, fragment_packet (firstn 4 record_a1_text)) in
  let n2 := (14, fragment_packet (skipn 4 record_a1_text)) in
  run (notify 12 Literal.literal_eval)
      ([n1] ++ (23, repeat x08 20) :: [n2]) self
  = run (notify 12 Literal.literal_eval) ([n1] ++ [n2]) self.
Proof.
  apply (rejected_notifications_leave_no_trace 12 Literal.literal_eval
           [(14, fragment_packet (firstn 4 record_a1_text))]
           (23, repeat x08 20)
           [(14, fragment_packet (skipn 4 record_a1_text))]
           (fresh_handler ["status"%string; "accelerometer"%string])).
  right. exists "accelerometer"%string.
  split; [reflexivity | left; discriminate].
Defined.

(** The two halves of a status record as notifications on handle 14. *)
Lemma status_notifications_run_the_assembler_at_halves :
  let packets := [fragment_packet (firstn 4 record_a1_text);
                  fragment_packet (skipn 4 record_a1_text)] in
  let self := fresh_handler ["status"%string] in
  snd (run (notify 12 Literal.literal_eval) (map (pair 14) packets) self)
  = snd (run (_process_status Literal.literal_eval)
           (map (fun p => map byte_value (firstn 20 p)) packets) self)
  /\ _message (fst (run (notify 12 Literal.literal_eval)
                       (map (pair 14) packets) self))
     = _message (fst (run (_process_status Literal.literal_eval)
                        (map (fun p => map byte_value (firstn 20 p)) packets)
                        self)).
Proof.
  apply (status_notifications_run_the_assembler 12 Literal.literal_eval
           [fragment_packet (firstn 4 record_a1_text);
            fragment_packet (skipn 4 record_a1_text)]
           (fresh_handler ["status"%string])).
  - by_computation.
  - repeat constructor; vm_compute; lia.
Defined.

(** Two samples on handle 35, the last of the cycle. *)
Lemma assemble_writes_one_slot_at_35 :
  let d := [F32.of_Z 2049; F32.of_Z 2050] in
  let self := eeg_handler 2 in
  let chunk := repeat (repeat (F32.of_Z 0) 2) 5 in
  let s := assemble (35, 7 :: [2049; 2050], d) self in
  let sidx' := <[1%nat:=7]> (repeat 0 5) in
  let chunk' := <[1%nat:=map convert_eeg_element d]> chunk in
  outcome s = Ok tt
  /\ _sample_idxs (after s) = <["eeg":=IArray sidx']> (_sample_idxs self)
  /\ _chunks (after s) = <["eeg":=chunk']> (_chunks self)
  /\ _message (after s) = _message self
  /\ _subscriptions (after s) = _subscriptions self
  /\ emitted s = (if decide (35 = 35)
                  then [Emit "eeg" (IArray sidx') (PChunk chunk')] else [])
  /\ (forall j, j <> 1%nat ->
        sidx' !! j = repeat 0 5 !! j /\ chunk' !! j = chunk !! j).
Proof.
  apply (assemble_writes_one_slot 35 1%nat 7 [2049; 2050]
           [F32.of_Z 2049; F32.of_Z 2050] (eeg_handler 2) (repeat 0 5)
           (repeat (repeat (F32.of_Z 0) 2) 5) (repeat (F32.of_Z 0) 2)).
  - reflexivity.
  - vm_compute. reflexivity.
  - vm_compute. lia.
  - vm_compute. reflexivity.
  - reflexivity.
  - reflexivity.
Defined.

(** One sample on each of the five handles. *)
Lemma assemble_cycle_emits_once_at_one_sample :
  let zero := F32.of_Z 0 in
  let idxs := IArray [4; 5; 3; 2; 1] in
  let chunk := map (map convert_eeg_element)
                 [ [F32.of_Z 2051]; [F32.of_Z 2052]; [F32.of_Z 2050];
                   [F32.of_Z 2049]; [F32.of_Z 2048] ] in
  let r := run assemble
             [ (44, 1 :: [2048], [F32.of_Z 2048]);
               (41, 2 :: [2049], [F32.of_Z 2049]);
               (38, 3 :: [2050], [F32.of_Z 2050]);
               (32, 4 :: [2051], [F32.of_Z 2051]);
               (35, 5 :: [2052], [F32.of_Z 2052]) ] (eeg_handler 1) in
  snd r = [Emit "eeg" idxs (PChunk chunk)]
  /\ _sample_idxs (fst r) !! "eeg" = Some idxs
  /\ _chunks (fst r) !! "eeg" = Some chunk.
Proof.
  apply (assemble_cycle_emits_once (eeg_handler 1) 0 0 0 0 0
           [F32.of_Z 0] [F32.of_Z 0] [F32.of_Z 0] [F32.of_Z 0] [F32.of_Z 0]
           1 2 3 4 5 [2048] [2049] [2050] [2051] [2052]
           [F32.of_Z 2048] [F32.of_Z 2049] [F32.of_Z 2050]
           [F32.of_Z 2051] [F32.of_Z 2052]).
  - vm_compute. reflexivity.
  - vm_compute. reflexivity.
  - reflexivity.
  - reflexivity.
  - reflexivity.
  - reflexivity.
  - reflexivity.
Defined.

(** Three samples for a row of two. *)
Lemma assemble_mismatch_keeps_index_at_32 :
  let d := [F32.of_Z 2048; F32.of_Z 2049; F32.of_Z 2050] in
  assemble (32, 7 :: [2048; 2049; 2050], d) (eeg_handler 2)
  = Step (with_sample_idxs
            <["eeg":=IArray (<[0%nat:=7]> (repeat 0 5))]> (eeg_handler 2))
         [] (Raise ValueError).
Proof.
  apply (assemble_mismatch_keeps_index 32 0%nat 7 [2048; 2049; 2050]
           [F32.of_Z 2048; F32.of_Z 2049; F32.of_Z 2050] (eeg_handler 2)
           (repeat 0 5) (repeat (repeat (F32.of_Z 0) 2) 5)
           (repeat (F32.of_Z 0) 2)).
  - reflexivity.
  - vm_compute. reflexivity.
  - vm_compute. lia.
  - vm_compute. reflexivity.
  - reflexivity.
  - vm_compute. lia.
  - vm_compute. lia.
Defined.

(** A gyroscope packet of twenty bytes. *)
Lemma decoded_payload_converts_at_gyroscope :
  exists fmt unpacked data convert value,
    dict_get (PACKET_FORMATS 12) (KStr "gyroscope") = Ok fmt
    /\ _unpack (repeat xff 20) fmt = Ok unpacked
    /\ np_array (slice_from1 unpacked) (OStr "float32") = Ok data
    /\ dict_get CONVERT_FUNCS (KStr "gyroscope") = Ok convert
    /\ convert data = Ok (Some value)
    /\ shape value = stream_shape 12 "gyroscope".
Proof.
  apply (decoded_payload_converts 12 20 "gyroscope" (repeat xff 20)).
  - reflexivity.
  - discriminate.
  - vm_compute. lia.
Defined.
